(** * MarkItDown HTTP adapter: a shallow embedding of
      [services/markitdown_api/main.py]

    The service has two handlers.  [convert_file] stages an upload in a
    temporary file, hands its path to the external converter, normalises
    whatever comes back to a string and removes the staged file.
    [supported_extensions] inspects the converter's handler registry and
    returns a sorted list of file extensions.

    Python values are modelled by [pyval], the filesystem by a finite map
    from paths to contents, and the external collaborators (the converter,
    the operating system's [unlink], the temporary-name generator, the
    faults that can hit the creation and the write of the temporary file)
    by the fields of an [Env] record. *)

From Stdlib Require Import ZArith Ascii String List.
From Stdlib.Strings Require Import Byte.
From stdpp Require Import base option list gmap sets strings sorting.

#[local] Set Warnings "-register-all".
Local Open Scope string_scope.

(** ** Python strings *)

Module PyString.

(** [needle in hay] for [str] operands. *)
Fixpoint contains (needle hay : string) : bool :=
  String.prefix needle hay
  || match hay with
     | EmptyString => false
     | String _ rest => contains needle rest
     end.

Definition is_upper (c : ascii) : bool :=
  let n := Ascii.nat_of_ascii c in (65 <=? n)%nat && (n <=? 90)%nat.

Definition lower_char (c : ascii) : ascii :=
  if is_upper c then Ascii.ascii_of_nat (Ascii.nat_of_ascii c + 32) else c.

(** [s.lower()] on the byte string [s]; bytes outside [A-Z] are kept. *)
Fixpoint lower (s : string) : string :=
  match s with
  | EmptyString => EmptyString
  | String c rest => String (lower_char c) (lower rest)
  end.

(** [s.rfind(c)]: index of the last occurrence of [c], or [-1]. *)
Fixpoint rfind (c : ascii) (s : string) : Z :=
  match s with
  | EmptyString => (-1)%Z
  | String d rest =>
      let r := rfind c rest in
      if (0 <=? r)%Z then (r + 1)%Z
      else if Ascii.eqb d c then 0%Z else (-1)%Z
  end.

Definition len (s : string) : Z := Z.of_nat (String.length s).

(** [s[i:]] for [0 <= i]. *)
Definition slice_from (i : Z) (s : string) : string :=
  String.substring (Z.to_nat i) (String.length s - Z.to_nat i) s.

(** [s.split(sep)] for a one-character separator. *)
Fixpoint split (sep : ascii) (s : string) : list string :=
  match s with
  | EmptyString => [EmptyString]
  | String c rest =>
      match split sep rest with
      | [] => [String c EmptyString]
      | hd :: tl =>
          if Ascii.eqb c sep then EmptyString :: hd :: tl
          else String c hd :: tl
      end
  end.

(** Code-point order on strings, the order [sorted] uses. *)
Definition le (a b : string) : Prop := String.leb a b = true.
Definition lt (a b : string) : Prop := String.ltb a b = true.

End PyString.

(** ** Python values *)

(** What [isinstance(v, (tuple, list))] and [isinstance(v, list)] see. *)
Inductive seqkind := IsList | IsTuple.

(** A value is [None], a [str], or an instance of some other class.  An
    instance carries its class name ([type(v).__name__]), its attributes,
    its elements if its class is [list] or [tuple] (or derives from one),
    and the text that [str(v)] yields for it. *)
Inductive pyval :=
| PyNone : pyval
| PyStr (s : string) : pyval
| PyObj (cls : string) (attrs : gmap string pyval)
        (items : option (seqkind * list pyval)) (text : string) : pyval.

Definition PyList (l : list pyval) (text : string) : pyval :=
  PyObj "list" ∅ (Some (IsList, l)) text.
Definition PyTuple (l : list pyval) (text : string) : pyval :=
  PyObj "tuple" ∅ (Some (IsTuple, l)) text.

(** Attribute lookup, for names that are not attributes of the built-in
    types: [Some a] when [hasattr(v, name)] holds and [v.name] is [a]. *)
Definition py_lookup_attr (v : pyval) (name : string) : option pyval :=
  match v with
  | PyObj _ attrs _ _ => attrs !! name
  | _ => None
  end.

(** [getattr(v, name, default)] *)
Definition py_getattr (v : pyval) (name : string) (default : pyval) : pyval :=
  match py_lookup_attr v name with
  | Some a => a
  | None => default
  end.

(** [type(v).__name__] *)
Definition py_type_name (v : pyval) : string :=
  match v with
  | PyNone => "NoneType"
  | PyStr _ => "str"
  | PyObj cls _ _ _ => cls
  end.

(** Truth value of [v]: [None], the empty string and empty sequences are
    false. *)
Definition py_truthy (v : pyval) : bool :=
  match v with
  | PyNone => false
  | PyStr s => negb (String.eqb s "")
  | PyObj _ _ (Some (_, [])) _ => false
  | PyObj _ _ _ _ => true
  end.

Definition py_is_list (v : pyval) : option (list pyval) :=
  match v with
  | PyObj _ _ (Some (IsList, l)) _ => Some l
  | _ => None
  end.

Definition py_is_tuple_or_list (v : pyval) : option (list pyval) :=
  match v with
  | PyObj _ _ (Some (_, l)) _ => Some l
  | _ => None
  end.

(** [str(v)]; the call is taken to return, as it does for every object
    whose [__str__] is not itself broken. *)
Definition py_str (v : pyval) : string :=
  match v with
  | PyNone => "None"
  | PyStr s => s
  | PyObj _ _ _ text => text
  end.

(** ** Result normalisation: [_to_markdown_text] *)

Definition _to_markdown_text (converted : pyval) : option string :=
  match converted with
  | PyNone => None
  | PyStr s => Some s
  | _ =>
      match py_getattr converted "text" PyNone with
      | PyStr text_attr => Some text_attr
      | _ =>
          match py_getattr converted "markdown" PyNone with
          | PyStr markdown_attr => Some markdown_attr
          | _ =>
              match py_is_tuple_or_list converted with
              | Some items =>
                  if py_truthy converted then
                    match last items with
                    | Some (PyStr s) => Some s
                    | _ => Some (py_str converted)
                    end
                  else Some (py_str converted)
              | None => Some (py_str converted)
              end
          end
      end
  end.

(** ** [pathlib]: the suffix of a POSIX path

    [Path(p).suffix] as CPython's [pathlib] computes it for POSIX paths
    (the rule [0 < i < len(name) - 1] of the versions up to 3.13). *)

Module Path.

(** The components of the path after the root: the pieces between
    slashes, without the empty ones and the ["."] ones. *)
Definition tail (p : string) : list string :=
  List.filter (fun x => negb (String.eqb x "") && negb (String.eqb x "."))
              (PyString.split "/" p).

(** [Path(p).name]: the final component, [""] if there is none. *)
Definition name (p : string) : string := default "" (last (tail p)).

(** [Path(p).suffix] *)
Definition suffix (p : string) : string :=
  let name := name p in
  let i := PyString.rfind "." name in
  if (0 <? i)%Z && (i <? PyString.len name - 1)%Z
  then PyString.slice_from i name
  else "".

End Path.

(** ** Exceptions, the filesystem and the outside world *)

(** The classes the handler's [except] clauses tell apart.  [OSError]
    derives from [Exception]; [ExcBaseOnly] stands for the exceptions that
    derive from [BaseException] alone ([KeyboardInterrupt], [SystemExit]). *)
Inductive exc_class := ExcOSError | ExcException | ExcBaseOnly.

Record pyexc := PyExc { exc_cls : exc_class; exc_str : string (* str(exc) *) }.

Definition isinstance_Exception (e : pyexc) : bool :=
  match exc_cls e with ExcBaseOnly => false | _ => true end.

Definition isinstance_OSError (e : pyexc) : bool :=
  match exc_cls e with ExcOSError => true | _ => false end.

Definition bytes := list byte.

(** What the handlers do to the world, in order. *)
Inductive event :=
| Staged (path : string)      (* NamedTemporaryFile created and written *)
| Created (path : string)     (* NamedTemporaryFile created, not written out *)
| Converted (path : string)   (* converter.convert(path) called *)
| Printed (line : string)     (* print(line) *)
| Unlinked (path : string).   (* os.unlink(path) called *)

Record World := mkWorld {
  fs : gmap string bytes;     (* regular files, by path *)
  trace : list event          (* effects so far, oldest first *)
}.

Definition emit (e : event) (w : World) : World :=
  mkWorld (fs w) (trace w ++ [e]).

Inductive convert_outcome :=
| Returned (v : pyval)
| Raised (e : pyexc).

(** What can go wrong between the creation of the temporary file and the
    end of the [with] block: nothing; the creation fails (no usable
    directory, no space, no permission) and there is no file; or the file
    is there and [write], or the flush when the block closes it, fails
    (disk full, quota), with [written] in the file. *)
Inductive fault :=
| NoFault
| CreateFault (e : pyexc)
| WriteFault (e : pyexc) (written : bytes).

(** The collaborators of one request.  The converter is a black box: given
    a path and the filesystem it returns a value or raises, and may touch
    the filesystem on the way. *)
Record Env := mkEnv {
  convert : string -> gmap string bytes -> convert_outcome * gmap string bytes;
  tmp_dir : string;                 (* tempfile.gettempdir() *)
  tmp_stem : string;                (* the random part of the temporary name *)
  unlink_denied : string -> bool;   (* the OS refuses to remove this path *)
  staging_fault : string -> bytes -> fault
                                    (* what the OS does to the staging of
                                       these bytes under this path *)
}.

(** [os.unlink(path)]: removes the file, or raises [OSError] when there is
    no such file or the removal is refused; the filesystem is unchanged
    when it raises. *)
Definition os_unlink (env : Env) (path : string) (files : gmap string bytes)
  : option pyexc * gmap string bytes :=
  match files !! path with
  | None => (Some (PyExc ExcOSError "No such file or directory"), files)
  | Some _ =>
      if unlink_denied env path
      then (Some (PyExc ExcOSError "Permission denied"), files)
      else (None, delete path files)
  end.

(** ** The conversion endpoint *)

Record UploadFile := mkUpload {
  filename : option string;
  payload : bytes               (* what [await file.read()] gives *)
}.

Inductive handler_result :=
| PlainTextResponse (status_code : Z) (body : string)
| HTTPException (status_code : Z) (detail : string)
| Uncaught (e : pyexc).

(** [x or ""] for an optional string [x]. *)
Definition or_empty (x : option string) : string :=
  match x with
  | Some s => if String.eqb s "" then "" else s
  | None => ""
  end.

(** The name [NamedTemporaryFile(delete=False, suffix=suffix)] gives its
    file. *)
Definition temp_name (env : Env) (suffix : string) : string :=
  tmp_dir env ++ "/tmp" ++ tmp_stem env ++ suffix.

(** The suffix [convert_file] asks for (line 19). *)
Definition staged_suffix (file : UploadFile) : string :=
  Path.suffix (or_empty (filename file)).

(** The [with] block (lines 20-22) when nothing fails: create the file,
    write the payload. *)
Definition stage (tmp_path : string) (contents : bytes) (w : World) : World :=
  emit (Staged tmp_path) (mkWorld (<[tmp_path := contents]> (fs w)) (trace w)).

(** The longest file name the filesystem takes, in bytes. *)
Definition NAME_MAX : nat := 255.

(** The last component of [temp_name]. *)
Definition temp_basename (env : Env) (suffix : string) : string :=
  "tmp" ++ tmp_stem env ++ suffix.

Inductive staging_result :=
| StagingDone (tmp_path : string) (w : World)
| StagingRaised (e : pyexc) (w : World).

(** Lines 20-22 with their failures.  [os.open] refuses a path with a NUL
    byte ([ValueError]) and a file name longer than [NAME_MAX]
    ([OSError]); the operating system may fail the creation or the write.
    Nothing here is inside the [try] of line 24: an exception leaves the
    handler, and with [delete=False] a file that was created stays. *)
Definition named_temporary_file (env : Env) (suffix : string)
    (contents : bytes) (w : World) : staging_result :=
  let tmp_path := temp_name env suffix in
  if PyString.contains (String "000" "") tmp_path then
    StagingRaised (PyExc ExcException "embedded null byte") w
  else if (NAME_MAX <? String.length (temp_basename env suffix))%nat then
    StagingRaised
      (PyExc ExcOSError
             ("[Errno 36] File name too long: '" ++ tmp_path ++ "'")) w
  else
    match staging_fault env tmp_path contents with
    | CreateFault e => StagingRaised e w
    | WriteFault e written =>
        StagingRaised e
          (emit (Created tmp_path)
                (mkWorld (<[tmp_path := written]> (fs w)) (trace w)))
    | NoFault => StagingDone tmp_path (stage tmp_path contents w)
    end.

(** The [try] body (line 25). *)
Definition call_convert (env : Env) (tmp_path : string) (w : World)
  : convert_outcome * World :=
  let '(outcome, files) := convert env tmp_path (fs w) in
  (outcome, emit (Converted tmp_path) (mkWorld files (trace w))).

(** The [finally] block (lines 30-33): [OSError] is caught and dropped.
    The second component is an exception that escapes the block. *)
Definition cleanup (env : Env) (tmp_path : string) (w : World)
  : World * option pyexc :=
  let '(err, files) := os_unlink env tmp_path (fs w) in
  let w' := emit (Unlinked tmp_path) (mkWorld files (trace w)) in
  match err with
  | Some e => if isinstance_OSError e then (w', None) else (w', Some e)
  | None => (w', None)
  end.

Definition convert_file (env : Env) (file : UploadFile) (w : World)
  : handler_result * World :=
  let contents := payload file in
  match contents with
  | [] => (HTTPException 400 "Uploaded file is empty.", w)
  | _ :: _ =>
      let suffix := staged_suffix file in
      match named_temporary_file env suffix contents w with
      | StagingRaised e w => (Uncaught e, w)
      | StagingDone tmp_path w =>
      (* try / except Exception *)
      let '(outcome, w) := call_convert env tmp_path w in
      let '(pending, w) :=
        match outcome with
        | Returned converted => (inl converted, w)
        | Raised exc =>
            if isinstance_Exception exc then
              let w := emit (Printed ("Conversion error: " ++ exc_str exc)) w in
              (inr (HTTPException 422 ("Conversion failed: " ++ exc_str exc)), w)
            else (inr (Uncaught exc), w)
        end in
      (* finally *)
      let '(w, escaped) := cleanup env tmp_path w in
      match escaped with
      | Some e => (Uncaught e, w)
      | None =>
          match pending with
          | inr failure => (failure, w)
          | inl converted =>
              let markdown := _to_markdown_text converted in
              match markdown with
              | None =>
                  (HTTPException 500 "Conversion returned an unexpected format.", w)
              | Some markdown => (PlainTextResponse 200 markdown, w)
              end
          end
      end
      end
  end.

(** ** The discovery endpoint *)

#[global] Instance pystring_le_dec (a b : string) : Decision (PyString.le a b).
Proof. unfold PyString.le. apply _. Defined.

(** [sorted(s)] for a set of strings. *)
Definition sorted (s : gset string) : list string :=
  merge_sort PyString.le (elements s).

(** [s.add(x)] and [s.update(xs)] *)
Definition set_add (x : string) (s : gset string) : gset string := {[ x ]} ∪ s.
Definition set_update (xs : list string) (s : gset string) : gset string :=
  list_to_set xs ∪ s.

(** The [if]/[elif] chain of lines 84-119. *)
Definition map_converter_name (converter_name : string) (extensions : gset string)
  : gset string :=
  let has marker := PyString.contains marker converter_name in
  if has "pdf" then set_add ".pdf" extensions
  else if has "docx" then set_add ".docx" extensions
  else if has "doc" && negb (has "docx") then set_add ".doc" extensions
  else if has "pptx" then set_add ".pptx" extensions
  else if has "ppt" && negb (has "pptx") then set_add ".ppt" extensions
  else if has "xlsx" then set_add ".xlsx" extensions
  else if has "xls" && negb (has "xlsx") then set_add ".xls" extensions
  else if has "csv" then set_add ".csv" extensions
  else if has "html" then set_update [".html"; ".htm"] extensions
  else if has "epub" then set_add ".epub" extensions
  else if has "ipynb" then set_add ".ipynb" extensions
  else if has "image" then
    set_update [".png"; ".jpg"; ".jpeg"; ".gif"; ".bmp"; ".tiff"; ".webp"] extensions
  else if has "audio" then set_update [".mp3"; ".wav"; ".m4a"; ".flac"] extensions
  else if has "msg" then set_add ".msg" extensions
  else if has "plaintext" then set_update [".txt"; ".md"; ".rst"; ".log"] extensions
  else if has "zip" then set_add ".zip" extensions
  else if has "rss" then set_update [".xml"; ".rss"] extensions
  else if has "json" then set_add ".json" extensions
  else extensions.

(** One turn of the loop over the registrations (lines 78-119):
    [hasattr(conv_reg, 'converter')], then [conv_reg.converter]. *)
Definition visit_registration (extensions : gset string) (conv_reg : pyval)
  : gset string :=
  match py_lookup_attr conv_reg "converter" with
  | Some actual_converter =>
      let converter_name := PyString.lower (py_type_name actual_converter) in
      map_converter_name converter_name extensions
  | None => extensions
  end.

(** Lines 73-119: the set after the introspection loop. *)
Definition introspected (converter : pyval) : gset string :=
  let converters := py_getattr converter "_converters" PyNone in
  let extensions : gset string := ∅ in
  if py_truthy converters then
    match py_is_list converters with
    | Some registrations => foldl visit_registration extensions registrations
    | None => extensions
    end
  else extensions.

Definition common_extensions : list string :=
  [".yaml"; ".yml"; ".tsv"; ".rtf"; ".eml"; ".tex"].

Definition fallback_extensions : gset string :=
  list_to_set
    [".pdf"; ".doc"; ".docx"; ".ppt"; ".pptx"; ".xls"; ".xlsx";
     ".txt"; ".md"; ".html"; ".htm"; ".csv"; ".tsv"; ".json";
     ".xml"; ".yaml"; ".yml"; ".ipynb"; ".rst"; ".tex"; ".rtf";
     ".eml"; ".msg"; ".epub"; ".zip"].

(** Line 122: the set the emptiness test of line 125 looks at. *)
Definition collected (converter : pyval) : gset string :=
  set_update common_extensions (introspected converter).

Definition _supported_extensions (converter : pyval) : list string :=
  let extensions := collected converter in
  let extensions :=
    if bool_decide (extensions = ∅) then fallback_extensions else extensions in
  sorted extensions.

Inductive json :=
| JString (s : string)
| JArray (items : list json)
| JObject (members : list (string * json)).

Record JSONResponse := mkJSONResponse { json_status : Z; json_content : json }.

Definition supported_extensions (converter : pyval) : JSONResponse :=
  let extensions := _supported_extensions converter in
  mkJSONResponse 200 (JObject [("extensions", JArray (JString <$> extensions))]).

(** ** One request, seen from outside *)

(** The path of the file a request stages. *)
Definition staged_path (env : Env) (file : UploadFile) : string :=
  temp_name env (staged_suffix file).

(** Lines 19-22 for this request. *)
Definition staging (env : Env) (file : UploadFile) (w : World) : staging_result :=
  named_temporary_file env (staged_suffix file) (payload file) w.

(** The converter's run in this request, if it gets to run: its outcome
    and the filesystem it leaves.  It does not run for an empty payload or
    when staging raises. *)
Definition converter_run (env : Env) (file : UploadFile) (w : World)
  : option (convert_outcome * gmap string bytes) :=
  match payload file with
  | [] => None
  | _ :: _ =>
      match staging env file w with
      | StagingDone tmp_path w => Some (convert env tmp_path (fs w))
      | StagingRaised _ _ => None
      end
  end.

Definition converter_outcome (env : Env) (file : UploadFile) (w : World)
  : option convert_outcome :=
  fst <$> converter_run env file w.

(** The filesystem as the converter leaves it, or as it was when the
    converter does not run. *)
Definition files_after_converter (env : Env) (file : UploadFile) (w : World)
  : gmap string bytes :=
  match converter_run env file w with
  | Some (_, files) => files
  | None => fs w
  end.

(** The answer that goes with an outcome of the converter. *)
Definition answer_for (outcome : convert_outcome) : handler_result :=
  match outcome with
  | Returned converted =>
      match _to_markdown_text converted with
      | Some markdown => PlainTextResponse 200 markdown
      | None => HTTPException 500 "Conversion returned an unexpected format."
      end
  | Raised exc =>
      if isinstance_Exception exc
      then HTTPException 422 ("Conversion failed: " ++ exc_str exc)
      else Uncaught exc
  end.

(** What is printed for an outcome of the converter. *)
Definition printed_for (outcome : convert_outcome) : list event :=
  match outcome with
  | Returned _ => []
  | Raised exc =>
      if isinstance_Exception exc
      then [Printed ("Conversion error: " ++ exc_str exc)]
      else []
  end.

(** The same collaborators with another removal policy of the OS. *)
Definition with_unlink_denied (deny : string -> bool) (env : Env) : Env :=
  mkEnv (convert env) (tmp_dir env) (tmp_stem env) deny (staging_fault env).

(** ** The specification's reading of the same operations

    These definitions follow the specification's wording, not the source;
    the theorems below compare them with the definitions above. *)

(** The normalisation rules (a) to (f).  A rule answers [None] when it does
    not apply, [Some None] when it applies and normalisation fails, and
    [Some (Some s)] when it applies and yields [s]. *)
Module Rules.

Definition rule := pyval -> option (option string).

Definition plain_text : rule := fun v =>
  match v with PyStr s => Some (Some s) | _ => None end.

Definition absent : rule := fun v =>
  match v with PyNone => Some None | _ => None end.

Definition string_field (name : string) : rule := fun v =>
  match py_lookup_attr v name with
  | Some (PyStr s) => Some (Some s)
  | _ => None
  end.

Definition last_of_sequence : rule := fun v =>
  match py_is_tuple_or_list v with
  | Some items =>
      match last items with
      | Some (PyStr s) => Some (Some s)
      | _ => None
      end
  | None => None
  end.

Definition stringify : rule := fun v => Some (Some (py_str v)).

Definition in_order : list rule :=
  [plain_text; absent; string_field "text"; string_field "markdown";
   last_of_sequence; stringify].

(** First match wins. *)
Fixpoint first_match (rules : list rule) (v : pyval) : option (option string) :=
  match rules with
  | [] => None
  | r :: rest =>
      match r v with
      | Some answer => Some answer
      | None => first_match rest v
      end
  end.

End Rules.

(** The lookup table of section 4.2, in its order. *)
Definition marker_table : list (string * list string) :=
  [("pdf", [".pdf"]); ("docx", [".docx"]); ("doc", [".doc"]);
   ("pptx", [".pptx"]); ("ppt", [".ppt"]); ("xlsx", [".xlsx"]);
   ("xls", [".xls"]); ("csv", [".csv"]); ("html", [".html"; ".htm"]);
   ("epub", [".epub"]); ("ipynb", [".ipynb"]);
   ("image", [".png"; ".jpg"; ".jpeg"; ".gif"; ".bmp"; ".tiff"; ".webp"]);
   ("audio", [".mp3"; ".wav"; ".m4a"; ".flac"]); ("msg", [".msg"]);
   ("plaintext", [".txt"; ".md"; ".rst"; ".log"]); ("zip", [".zip"]);
   ("rss", [".xml"; ".rss"]); ("json", [".json"])].

(** The first row of the table whose marker occurs in the name. *)
Definition first_matching_row (converter_name : string)
  : option (string * list string) :=
  List.find (fun row => PyString.contains (fst row) converter_name) marker_table.

(** The suffix as section 4.1 words it: the substring of the filename from
    its last dot onward, empty without a filename or without a dot. *)
Definition suffix_from_last_dot (declared : option string) : string :=
  match declared with
  | None => ""
  | Some f =>
      let i := PyString.rfind "." f in
      if (i <? 0)%Z then "" else PyString.slice_from i f
  end.

(** A registry entry whose handler is an instance of class [cls]. *)
Definition registration (cls : string) : pyval :=
  PyObj "ConverterRegistration" {[ "converter" := PyObj cls ∅ None "" ]} None "".

(** A converter object whose [_converters] attribute holds [registry]. *)
Definition converter_with (registry : pyval) : pyval :=
  PyObj "MarkItDown" {[ "_converters" := registry ]} None "".

(** ** Sample requests *)

(** A converter that leaves the filesystem alone and ends with [outcome];
    temporary files go to [/tmp], staging meets no fault and the OS removes
    what it is asked to. *)
Definition sample_env (outcome : convert_outcome) : Env :=
  mkEnv (fun _ files => (outcome, files)) "/tmp" "k3x9_q2a" (fun _ => false)
        (fun _ _ => NoFault).

(** The same on a full disk: the temporary file is created and the write
    fails before anything reaches it. *)
Definition full_disk_env (outcome : convert_outcome) : Env :=
  mkEnv (fun _ files => (outcome, files)) "/tmp" "k3x9_q2a" (fun _ => false)
        (fun _ _ =>
           WriteFault (PyExc ExcOSError "[Errno 28] No space left on device") []).

Definition sample_upload : UploadFile :=
  mkUpload (Some "report.docx") [x50; x4b; x03; x04].

Definition empty_world : World := mkWorld ∅ [].

(** The same, on a system that refuses every removal. *)
Definition refusing_env (outcome : convert_outcome) : Env :=
  with_unlink_denied (fun _ => true) (sample_env outcome).

(** A converter that removes its input before it returns. *)
Definition consuming_env : Env :=
  mkEnv (fun path files => (Returned (PyStr "done"), delete path files))
        "/tmp" "k3x9_q2a" (fun _ => false) (fun _ _ => NoFault).

Definition report_markdown : string :=
  "# Report" ++ String "010" (String "010" "Body").

(** ** Further vocabulary for the discovery endpoint *)

(** The registrations the loop of lines 78-119 runs over: the elements of
    [converter._converters] when that is a list, none otherwise. *)
Definition registrations_of (converter : pyval) : list pyval :=
  default [] (py_is_list (py_getattr converter "_converters" PyNone)).

(** What one registration adds to an empty set. *)
Definition contribution (conv_reg : pyval) : gset string :=
  visit_registration ∅ conv_reg.

(** The string literals of lines 84-119, in their order. *)
Definition handler_extensions : list string :=
  [".pdf"; ".docx"; ".doc"; ".pptx"; ".ppt"; ".xlsx"; ".xls"; ".csv";
   ".html"; ".htm"; ".epub"; ".ipynb";
   ".png"; ".jpg"; ".jpeg"; ".gif"; ".bmp"; ".tiff"; ".webp";
   ".mp3"; ".wav"; ".m4a"; ".flac"; ".msg";
   ".txt"; ".md"; ".rst"; ".log"; ".zip"; ".xml"; ".rss"; ".json"].

(** Every extension the endpoint can name without the fallback. *)
Definition known_extensions : list string :=
  (handler_extensions ++ common_extensions)%list.

(** * Properties *)

(** ** The model on concrete inputs *)

Example suffix_examples :
  Path.suffix <$> ["report.docx"; "archive.tar.gz"; "README"; ".bashrc";
                   "notes."; "v1.2/README"; "a/b.txt/"; ""; ".."; "a/./b.c/."]
  = [".docx"; ".gz"; ""; ""; ""; ""; ".txt"; ""; ""; ".c"].
Proof. reflexivity. Qed.

Example lower_example :
  PyString.lower "PdfCsvConverter" = "pdfcsvconverter".
Proof. reflexivity. Qed.

Example split_example :
  PyString.split "/" "a//b/" = ["a"; ""; "b"; ""].
Proof. reflexivity. Qed.

Example rfind_example :
  PyString.rfind "." <$> ["a.b.c"; ".a"; "abc"; ""] = [3; 0; -1; -1]%Z.
Proof. reflexivity. Qed.

Example fallback_has_25_entries : size fallback_extensions = 25.
Proof. vm_compute. reflexivity. Qed.

Example registry_example :
  _supported_extensions
    (converter_with
       (PyList [registration "DocxConverter"; PyNone;
                registration "ImageConverter"; registration "RssConverter"] ""))
  = [".bmp"; ".docx"; ".eml"; ".gif"; ".jpeg"; ".jpg"; ".png"; ".rss"; ".rtf";
     ".tex"; ".tiff"; ".tsv"; ".webp"; ".xml"; ".yaml"; ".yml"].
Proof. vm_compute. reflexivity. Qed.

(** A tuple of registrations is not a list: nothing is introspected. *)
Example registry_tuple_example :
  _supported_extensions
    (converter_with (PyTuple [registration "DocxConverter"] ""))
  = [".eml"; ".rtf"; ".tex"; ".tsv"; ".yaml"; ".yml"].
Proof. vm_compute. reflexivity. Qed.

(** When the system refuses the removal the answer is the same and the
    staged file stays. *)
Example refused_removal_is_silent :
  let r := convert_file (refusing_env (Returned (PyStr "text"))) sample_upload
                        empty_world in
  fst r = PlainTextResponse 200 "text"
  /\ fs (snd r) !! "/tmp/tmpk3x9_q2a.docx" = Some (payload sample_upload).
Proof. split; vm_compute; reflexivity. Qed.

(** When the converter has removed the file itself, [os.unlink] raises, the
    error is dropped and the answer is the same. *)
Example missing_file_is_silent :
  let r := convert_file consuming_env sample_upload empty_world in
  fst r = PlainTextResponse 200 "done"
  /\ fs (snd r) !! "/tmp/tmpk3x9_q2a.docx" = None
  /\ trace (snd r)
     = [Staged "/tmp/tmpk3x9_q2a.docx"; Converted "/tmp/tmpk3x9_q2a.docx";
        Unlinked "/tmp/tmpk3x9_q2a.docx"].
Proof. repeat split; vm_compute; reflexivity. Qed.

(** A declared extension that makes the file name longer than [NAME_MAX]:
    the temporary file cannot be created, the converter is not called and
    the [OSError] leaves the handler. *)
Example long_extension_is_refused :
  let long := "a." ++ string_of_list_ascii (replicate 300 "x"%char) in
  let r := convert_file (sample_env (Returned (PyStr "text")))
                        (mkUpload (Some long) [x50]) empty_world in
  String.length (staged_suffix (mkUpload (Some long) [x50])) = 301%nat
  /\ (exists msg, fst r = Uncaught (PyExc ExcOSError msg))
  /\ snd r = empty_world.
Proof.
  split; [vm_compute; reflexivity|].
  split; [eexists; vm_compute; reflexivity | vm_compute; reflexivity].
Qed.

(** A NUL byte in the declared extension: [ValueError], nothing staged. *)
Example nul_in_extension_is_refused :
  let r := convert_file (sample_env (Returned (PyStr "text")))
                        (mkUpload (Some ("a.p" ++ String "000" "df")) [x50])
                        empty_world in
  r = (Uncaught (PyExc ExcException "embedded null byte"), empty_world).
Proof. vm_compute. reflexivity. Qed.

(** An exception outside [Exception] is not caught, and the staged file is
    removed all the same. *)
Example interrupt_propagates :
  let e := PyExc ExcBaseOnly "KeyboardInterrupt" in
  let r := convert_file (sample_env (Raised e)) sample_upload empty_world in
  fst r = Uncaught e
  /\ fs (snd r) !! "/tmp/tmpk3x9_q2a.docx" = None.
Proof. split; vm_compute; reflexivity. Qed.

(** ** The order on strings *)

Section StringOrder.

Lemma ascii_compare_trans (c : comparison) (x y z : ascii) :
  Ascii.compare x y = c -> Ascii.compare y z = c -> Ascii.compare x z = c.
Proof.
  unfold Ascii.compare. destruct c; intros Hxy Hyz.
  - apply N.compare_eq_iff in Hxy, Hyz. apply N.compare_eq_iff. congruence.
  - rewrite N.compare_lt_iff in *. lia.
  - rewrite N.compare_gt_iff in *. lia.
Qed.

Lemma string_compare_lt_trans (a b c : string) :
  String.compare a b = Lt -> String.compare b c = Lt -> String.compare a c = Lt.
Proof.
  revert b c. induction a as [|x a IH]; intros [|y b] [|z c]; simpl; try congruence.
  destruct (Ascii.compare x y) eqn:Hxy; try congruence;
    destruct (Ascii.compare y z) eqn:Hyz; try congruence; intros Hab Hbc.
  - rewrite (ascii_compare_trans Eq x y z) by done. eauto.
  - apply Ascii.compare_eq_iff in Hxy. subst. by rewrite Hyz.
  - apply Ascii.compare_eq_iff in Hyz. subst. by rewrite Hxy.
  - by rewrite (ascii_compare_trans Lt x y z).
Qed.

Lemma string_compare_refl (a : string) : String.compare a a = Eq.
Proof.
  pose proof (String.compare_antisym a a) as H.
  destruct (String.compare a a); simpl in H; congruence.
Qed.

End StringOrder.

#[global] Instance pystring_le_total : Total PyString.le.
Proof. intros a b. apply String.leb_total. Qed.

#[global] Instance pystring_le_trans : Transitive PyString.le.
Proof.
  intros a b c. unfold PyString.le, String.leb. intros Hab Hbc.
  destruct (String.compare a b) eqn:Eab; try discriminate;
    destruct (String.compare b c) eqn:Ebc; try discriminate.
  - apply String.compare_eq_iff in Eab, Ebc. subst.
    by rewrite string_compare_refl.
  - apply String.compare_eq_iff in Eab. subst a. by rewrite Ebc.
  - apply String.compare_eq_iff in Ebc. subst c. by rewrite Eab.
  - by rewrite (string_compare_lt_trans a b c).
Qed.

#[global] Instance pystring_le_antisym : AntiSymm (=) PyString.le.
Proof. intros a b. apply String.leb_antisym. Qed.

Lemma pystring_lt_le_ne (a b : string) :
  PyString.lt a b <-> PyString.le a b /\ a <> b.
Proof.
  unfold PyString.lt, PyString.le, String.ltb, String.leb. split.
  - intros H. destruct (String.compare a b) eqn:E; try discriminate.
    split; [done|]. intros ->. rewrite string_compare_refl in E. done.
  - intros [H Hne]. destruct (String.compare a b) eqn:E; try done.
    apply String.compare_eq_iff in E. done.
Qed.

(** ** Sorting a set *)

Lemma elem_of_sorted (s : gset string) (x : string) : x ∈ sorted s <-> x ∈ s.
Proof.
  unfold sorted. rewrite merge_sort_Permutation. apply elem_of_elements.
Qed.

Lemma sorted_NoDup (s : gset string) : NoDup (sorted s).
Proof.
  unfold sorted. rewrite merge_sort_Permutation. apply NoDup_elements.
Qed.

Lemma sorted_le (s : gset string) : StronglySorted PyString.le (sorted s).
Proof. apply StronglySorted_merge_sort; apply _. Qed.

Lemma StronglySorted_le_lt (l : list string) :
  StronglySorted PyString.le l -> NoDup l -> StronglySorted PyString.lt l.
Proof.
  induction 1 as [|x l Hl IH Hx]; intros Hnd; [constructor|].
  apply NoDup_cons in Hnd as [Hnotin Hnd]. constructor; [auto|].
  rewrite Forall_forall in Hx |- *. intros y Hy.
  apply pystring_lt_le_ne. split; [by apply Hx|].
  intros ->. done.
Qed.

Lemma sorted_lt (s : gset string) : StronglySorted PyString.lt (sorted s).
Proof. apply StronglySorted_le_lt; [apply sorted_le | apply sorted_NoDup]. Qed.

(** ** The discovery endpoint *)

Lemma collected_common (converter : pyval) :
  Forall (fun x => x ∈ collected converter) common_extensions.
Proof.
  unfold collected, set_update. apply Forall_forall. intros x Hx.
  apply elem_of_union_l, elem_of_list_to_set, Hx.
Qed.

Lemma collected_nonempty (converter : pyval) : collected converter ≠ ∅.
Proof.
  pose proof (collected_common converter) as H.
  apply Forall_cons in H as [H _]. intros Hempty.
  rewrite Hempty in H. by apply not_elem_of_empty in H.
Qed.

Lemma supported_skips_fallback (converter : pyval) :
  _supported_extensions converter = sorted (collected converter).
Proof.
  unfold _supported_extensions.
  rewrite bool_decide_eq_false_2; [done | apply collected_nonempty].
Qed.

(** C7: whatever the converter's registry looks like, the six common
    extensions are in the list the endpoint returns; so the list is never
    empty, the set tested on line 125 is never empty, and the fallback
    branch is never taken. *)
Theorem common_extensions_always_listed (converter : pyval) :
  Forall (fun x => x ∈ _supported_extensions converter)
         [".yaml"; ".yml"; ".tsv"; ".rtf"; ".eml"; ".tex"]
  /\ _supported_extensions converter ≠ []
  /\ collected converter ≠ ∅
  /\ _supported_extensions converter = sorted (collected converter).
Proof.
  assert (Forall (fun x => x ∈ _supported_extensions converter)
                 common_extensions) as Hall.
  { rewrite supported_skips_fallback.
    eapply Forall_impl; [apply (collected_common converter)|].
    intros x Hx. apply elem_of_sorted, Hx. }
  split; [exact Hall|]. split.
  - apply Forall_cons in Hall as [H _]. intros Hnil.
    rewrite Hnil in H. by apply not_elem_of_nil in H.
  - split; [apply collected_nonempty | apply supported_skips_fallback].
Qed.

(** C8: whatever the converter's registry looks like, the endpoint answers
    with status 200 and the object [{"extensions": l}], where [l] is in
    strictly ascending code-point order, hence sorted and free of
    duplicates. *)
Theorem supported_extensions_sorted_unique (converter : pyval) :
  exists l : list string,
    supported_extensions converter
    = mkJSONResponse 200 (JObject [("extensions", JArray (JString <$> l))])
    /\ StronglySorted PyString.le l
    /\ StronglySorted PyString.lt l
    /\ NoDup l.
Proof.
  exists (_supported_extensions converter). split; [reflexivity|].
  unfold _supported_extensions.
  split; [apply sorted_le|]. split; [apply sorted_lt | apply sorted_NoDup].
Qed.

Lemma set_add_as_update (x : string) (s : gset string) :
  set_add x s = set_update [x] s.
Proof. unfold set_add, set_update. simpl. by rewrite union_empty_r_L. Qed.

(** C9 (as amended): a handler contributes the extensions of one row of
    the table at most, the first row in table order whose marker occurs in
    its lowercased type name, however many markers the name contains. *)
Theorem handler_contributes_first_matching_row
    (converter_name : string) (extensions : gset string) :
  map_converter_name converter_name extensions
  = match first_matching_row converter_name with
    | Some (_, exts) => set_update exts extensions
    | None => extensions
    end.
Proof.
  unfold map_converter_name, first_matching_row, marker_table.
  cbn [List.find fst snd].
  repeat (match goal with
          | |- context [PyString.contains ?m converter_name] =>
              destruct (PyString.contains m converter_name)
          end; cbn [andb negb];
          [first [apply set_add_as_update | reflexivity]|]).
  reflexivity.
Qed.

(** C9 (as stated) fails: the handler class [PdfCsvConverter] has both
    ["pdf"] and ["csv"] in its lowercased name, yet contributes [.pdf]
    alone, and [.csv] is missing from the endpoint's list. *)
Lemma pdf_csv_handler_contributes_pdf_only :
  let converter_name := PyString.lower "PdfCsvConverter" in
  PyString.contains "pdf" converter_name = true
  /\ PyString.contains "csv" converter_name = true
  /\ visit_registration ∅ (registration "PdfCsvConverter") = {[ ".pdf" ]}
  /\ _supported_extensions
       (converter_with (PyList [registration "PdfCsvConverter"] ""))
     = [".eml"; ".pdf"; ".rtf"; ".tex"; ".tsv"; ".yaml"; ".yml"]
  /\ ".csv" ∉ _supported_extensions
       (converter_with (PyList [registration "PdfCsvConverter"] "")).
Proof.
  assert (_supported_extensions
            (converter_with (PyList [registration "PdfCsvConverter"] ""))
          = [".eml"; ".pdf"; ".rtf"; ".tex"; ".tsv"; ".yaml"; ".yml"]) as Hl
    by (vm_compute; reflexivity).
  split; [vm_compute; reflexivity|].
  split; [vm_compute; reflexivity|].
  split; [vm_compute; reflexivity|].
  split; [exact Hl|].
  rewrite Hl. intros Hin.
  repeat (apply elem_of_cons in Hin as [Hin|Hin]; [discriminate Hin|]).
  by apply not_elem_of_nil in Hin.
Qed.

(** ** The conversion endpoint *)

Section ConvertFile.

Variables (env : Env) (file : UploadFile) (w : World).

Let tmp_path := staged_path env file.

(** Staging either completes under the staged path, or raises and leaves
    the world as it was but for a file it has created. *)
Lemma staging_cases :
  staging env file w = StagingDone tmp_path (stage tmp_path (payload file) w)
  \/ (exists e, staging env file w = StagingRaised e w)
  \/ (exists e written,
        staging env file w
        = StagingRaised e
            (emit (Created tmp_path)
                  (mkWorld (<[tmp_path := written]> (fs w)) (trace w)))).
Proof.
  subst tmp_path. unfold staging, named_temporary_file, staged_path.
  destruct (PyString.contains _ _); [right; left; eauto|].
  destruct (_ <? _)%nat; [right; left; eauto|].
  destruct (staging_fault env _ _) as [|e|e written].
  - by left.
  - right; left. eauto.
  - right; right. eauto.
Qed.

(** When staging raises, its exception is the handler's. *)
Lemma convert_file_staging_raised (e : pyexc) (w' : World) :
  payload file <> [] ->
  staging env file w = StagingRaised e w' ->
  convert_file env file w = (Uncaught e, w').
Proof.
  intros Hp Hs. unfold convert_file.
  destruct (payload file) as [|b rest] eqn:Hpl; [done|].
  unfold staging in Hs. rewrite Hpl in Hs. by rewrite Hs.
Qed.

Variables (outcome : convert_outcome) (files : gmap string bytes).
Hypothesis run : converter_run env file w = Some (outcome, files).

Lemma converter_run_payload : payload file <> [].
Proof. unfold converter_run in run. by destruct (payload file). Qed.

Lemma converter_run_staging :
  staging env file w = StagingDone tmp_path (stage tmp_path (payload file) w)
  /\ convert env tmp_path (<[tmp_path := payload file]> (fs w))
     = (outcome, files).
Proof.
  unfold converter_run in run. destruct (payload file) as [|b rest] eqn:Hp; [done|].
  destruct staging_cases as [Hs|[(e & Hs)|(e & written & Hs)]];
    rewrite Hs in run; try done.
  rewrite Hp in Hs, run. split; [done|]. by injection run.
Qed.

Lemma convert_file_unfold :
  convert_file env file w
  = (let '(w1, escaped) :=
       cleanup env tmp_path
         (let w0 := emit (Converted tmp_path)
                         (mkWorld files (trace (stage tmp_path (payload file) w))) in
          match outcome with
          | Raised exc =>
              if isinstance_Exception exc
              then emit (Printed ("Conversion error: " ++ exc_str exc)) w0
              else w0
          | Returned _ => w0
          end) in
     match escaped with
     | Some e => (Uncaught e, w1)
     | None => (answer_for outcome, w1)
     end).
Proof.
  destruct converter_run_staging as [Hs Hc].
  pose proof converter_run_payload as Hp.
  unfold convert_file. destruct (payload file) as [|b rest] eqn:Hpl; [done|].
  unfold staging in Hs. rewrite Hpl in Hs. rewrite Hs.
  unfold call_convert, stage at 1. cbn [fs trace emit]. rewrite Hc.
  destruct outcome as [v|e]; cbn [answer_for].
  - destruct (cleanup env tmp_path _) as [w1 [e1|]]; [done|].
    by destruct (_to_markdown_text v).
  - destruct (isinstance_Exception e);
      by destruct (cleanup env tmp_path _) as [w1 [e1|]].
Qed.

(** The answer depends on the converter's outcome alone. *)
Lemma convert_file_answer :
  fst (convert_file env file w) = answer_for outcome.
Proof.
  rewrite convert_file_unfold. unfold cleanup, os_unlink.
  destruct outcome as [v|e]; [|destruct (isinstance_Exception e)];
    cbn [fs trace emit];
    (destruct (files !! tmp_path); [destruct (unlink_denied env tmp_path)|]; done).
Qed.

(** The effects of a request, in order: stage, convert, print on a
    caught error, unlink. *)
Lemma convert_file_trace :
  trace (snd (convert_file env file w))
  = (trace w ++ [Staged tmp_path; Converted tmp_path]
             ++ printed_for outcome ++ [Unlinked tmp_path])%list.
Proof.
  rewrite convert_file_unfold. unfold cleanup, os_unlink, stage, emit.
  destruct outcome as [v|e]; [|destruct (isinstance_Exception e) eqn:He];
    simpl; rewrite ?He;
    (destruct (files !! tmp_path); [destruct (unlink_denied env tmp_path)|];
     simpl; by rewrite <- ?app_assoc).
Qed.

(** The filesystem after a request is what [os.unlink] leaves of the
    filesystem the converter left. *)
Lemma convert_file_fs :
  fs (snd (convert_file env file w)) = snd (os_unlink env tmp_path files).
Proof.
  rewrite convert_file_unfold. unfold cleanup, os_unlink.
  destruct outcome as [v|e]; [|destruct (isinstance_Exception e)];
    cbn [fs trace emit];
    (destruct (files !! tmp_path); [destruct (unlink_denied env tmp_path)|]; done).
Qed.

End ConvertFile.

Lemma converter_outcome_run (env : Env) (file : UploadFile) (w : World)
    (outcome : convert_outcome) :
  converter_outcome env file w = Some outcome <->
  exists files, converter_run env file w = Some (outcome, files).
Proof.
  unfold converter_outcome. split.
  - destruct (converter_run env file w) as [[o files]|]; [|done].
    intros [= ->]. eauto.
  - by intros [files ->].
Qed.

Lemma convert_file_answer_for (env : Env) (file : UploadFile) (w : World)
    (outcome : convert_outcome) :
  converter_outcome env file w = Some outcome ->
  fst (convert_file env file w) = answer_for outcome.
Proof.
  intros [files Hrun]%converter_outcome_run.
  by apply (convert_file_answer env file w outcome files).
Qed.

(** Without a run of the converter the handler answers 400 or lets the
    exception of the staging through. *)
Lemma convert_file_no_run (env : Env) (file : UploadFile) (w : World) :
  converter_outcome env file w = None ->
  (payload file = []
   /\ convert_file env file w
      = (HTTPException 400 "Uploaded file is empty.", w))
  \/ (payload file <> []
      /\ exists e w',
           staging env file w = StagingRaised e w'
           /\ convert_file env file w = (Uncaught e, w')).
Proof.
  unfold converter_outcome, converter_run.
  destruct (payload file) as [|b rest] eqn:Hp.
  - intros _. left. split; [done|]. unfold convert_file. by rewrite Hp.
  - destruct (staging env file w) as [p w1|e w1] eqn:Hs; [done|].
    intros _. right. split; [done|]. exists e, w1. split; [done|].
    apply convert_file_staging_raised; [by rewrite Hp | done].
Qed.

Lemma os_unlink_gone (env : Env) (path : string) (files : gmap string bytes) :
  unlink_denied env path = false ->
  snd (os_unlink env path files) !! path = None.
Proof.
  intros Hok. unfold os_unlink. destruct (files !! path) eqn:Hl; simpl.
  - rewrite Hok. simpl. apply lookup_delete_eq.
  - exact Hl.
Qed.

Lemma os_unlink_others (env : Env) (path other : string)
    (files : gmap string bytes) :
  other <> path -> snd (os_unlink env path files) !! other = files !! other.
Proof.
  intros Hne. unfold os_unlink. destruct (files !! path); simpl; [|done].
  destruct (unlink_denied env path); simpl; [done|].
  by apply lookup_delete_ne.
Qed.

(** ** Normalisation *)

Lemma to_markdown_text_none (converted : pyval) :
  _to_markdown_text converted = None <-> converted = PyNone.
Proof.
  split; [|by intros ->].
  destruct converted as [|s|cls attrs items text]; [done|done|].
  unfold _to_markdown_text. intros H. repeat case_match; done.
Qed.

Lemma to_markdown_text_rules (converted : pyval) :
  Rules.first_match Rules.in_order converted = Some (_to_markdown_text converted).
Proof.
  destruct converted as [|s|cls attrs items text]; [done|done|].
  unfold Rules.in_order, Rules.first_match, Rules.plain_text, Rules.absent,
    Rules.string_field, Rules.last_of_sequence, Rules.stringify,
    _to_markdown_text, py_getattr, py_lookup_attr.
  destruct (attrs !! "text") as [[]|]; try done;
    (destruct (attrs !! "markdown") as [[]|]; try done;
     (destruct items as [[kind [|x l]]|]; [done| |done];
      cbn [py_is_tuple_or_list py_truthy];
      destruct (last (x :: l)) as [[]|]; done)).
Qed.

(** C4: normalisation fails on [None] and on nothing else: every other
    value, whatever its shape, is turned into some string.  So for a
    non-empty upload the handler answers 500 with the detail
    [Conversion returned an unexpected format.] exactly when the converter
    returned [None]. *)
Theorem normalization_fails_only_on_none :
  (forall converted, _to_markdown_text converted = None <-> converted = PyNone)
  /\ (forall converted,
        converted <> PyNone -> exists s, _to_markdown_text converted = Some s)
  /\ (forall env file w,
        payload file <> [] ->
        converter_outcome env file w = Some (Returned PyNone) ->
        fst (convert_file env file w)
        = HTTPException 500 "Conversion returned an unexpected format.")
  /\ (forall env file w detail,
        payload file <> [] ->
        fst (convert_file env file w) = HTTPException 500 detail ->
        converter_outcome env file w = Some (Returned PyNone)).
Proof.
  split; [exact to_markdown_text_none|]. split; [|split].
  - intros converted Hne. destruct (_to_markdown_text converted) eqn:E; [eauto|].
    by apply to_markdown_text_none in E.
  - intros env file w Hp Hrun. by rewrite (convert_file_answer_for _ _ _ _ Hrun).
  - intros env file w detail Hp.
    destruct (converter_outcome env file w) as [[v|e]|] eqn:Hrun.
    + rewrite (convert_file_answer_for _ _ _ _ Hrun). simpl.
      destruct (_to_markdown_text v) eqn:E; [done|].
      apply to_markdown_text_none in E. by subst.
    + rewrite (convert_file_answer_for _ _ _ _ Hrun). simpl.
      by destruct (isinstance_Exception e).
    + destruct (convert_file_no_run _ _ _ Hrun)
        as [[Hempty _]|(_ & e & w' & _ & ->)]; done.
Qed.

Lemma normalization_fails_only_on_none_witness :
  fst (convert_file (sample_env (Returned PyNone)) sample_upload empty_world)
  = HTTPException 500 "Conversion returned an unexpected format."
  /\ converter_outcome (sample_env (Returned PyNone)) sample_upload empty_world
     = Some (Returned PyNone)
  /\ exists s, _to_markdown_text (PyTuple [] "()") = Some s.
Proof.
  destruct normalization_fails_only_on_none as (_ & Hsome & H500 & Honly).
  split; [apply H500; [discriminate | reflexivity]|].
  split.
  - apply (Honly _ _ _ "Conversion returned an unexpected format.");
      [discriminate | reflexivity].
  - apply Hsome. discriminate.
Defined.

(** C5: normalisation is the first match among the rules (a) to (f) in
    their order.  A string comes back as it is; a string [text] attribute
    wins over a string [markdown] attribute; a non-empty list or tuple
    gives its last element if that is a string and its [str()] otherwise;
    and a non-empty upload named [report.docx] for which the converter
    returns the string ["# Report\n\nBody"] is answered with status 200
    and exactly that body. *)
Theorem normalization_first_match_wins :
  (forall converted,
     Rules.first_match Rules.in_order converted
     = Some (_to_markdown_text converted))
  /\ (forall s, _to_markdown_text (PyStr s) = Some s)
  /\ (forall cls attrs items text t,
        attrs !! "text" = Some (PyStr t) ->
        _to_markdown_text (PyObj cls attrs items text) = Some t)
  /\ (forall cls attrs items text m,
        Rules.string_field "text" (PyObj cls attrs items text) = None ->
        attrs !! "markdown" = Some (PyStr m) ->
        _to_markdown_text (PyObj cls attrs items text) = Some m)
  /\ (forall l x text,
        _to_markdown_text (PyList (l ++ [x]) text)
        = Some (match x with PyStr s => s | _ => text end)
        /\ _to_markdown_text (PyTuple (l ++ [x]) text)
           = Some (match x with PyStr s => s | _ => text end))
  /\ (forall text,
        _to_markdown_text (PyList [] text) = Some text
        /\ _to_markdown_text (PyTuple [] text) = Some text)
  /\ (forall env w content,
        content <> [] ->
        let file := mkUpload (Some "report.docx") content in
        converter_outcome env file w = Some (Returned (PyStr report_markdown)) ->
        fst (convert_file env file w) = PlainTextResponse 200 report_markdown).
Proof.
  split; [exact to_markdown_text_rules|]. split; [done|].
  split; [|split; [|split; [|split]]].
  - intros cls attrs items text t Ht.
    unfold _to_markdown_text, py_getattr. simpl. by rewrite Ht.
  - intros cls attrs items text m Ht Hm.
    unfold Rules.string_field in Ht.
    unfold _to_markdown_text, py_getattr. simpl in *. rewrite Hm.
    by destruct (attrs !! "text") as [[]|].
  - intros l x text.
    assert (forall kind cls,
              _to_markdown_text (PyObj cls ∅ (Some (kind, (l ++ [x])%list)) text)
              = Some (match x with PyStr s => s | _ => text end)) as H.
    { intros kind cls. unfold _to_markdown_text, py_getattr. simpl.
      rewrite !lookup_empty. simpl.
      rewrite last_snoc.
      destruct (l ++ [x])%list eqn:E; [by destruct l|].
      by destruct x. }
    split; apply H.
  - done.
  - intros env w content Hc file Hrun.
    by rewrite (convert_file_answer_for _ _ _ _ Hrun).
Qed.

Lemma normalization_first_match_wins_witness :
  fst (convert_file (sample_env (Returned (PyStr report_markdown)))
                    sample_upload empty_world)
  = PlainTextResponse 200 report_markdown
  /\ _to_markdown_text
       (PyObj "DocumentConverterResult"
              {[ "text" := PyStr "body"; "markdown" := PyStr "other" ]}
              None "<result>")
     = Some "body"
  /\ _to_markdown_text
       (PyObj "DocumentConverterResult"
              {[ "text" := PyNone; "markdown" := PyStr "other" ]}
              None "<result>")
     = Some "other".
Proof.
  destruct normalization_first_match_wins
    as (_ & _ & Htext & Hmd & _ & _ & Hexample).
  split; [apply (Hexample _ _ [x50; x4b; x03; x04]); [discriminate | reflexivity]|].
  split; [apply Htext; reflexivity|].
  apply Hmd; reflexivity.
Defined.

(** C10: when the converter returns the empty string for a non-empty
    upload the handler answers 200 with an empty body; the emptiness test is
    on the payload alone. *)
Theorem empty_result_is_valid (env : Env) (file : UploadFile) (w : World) :
  payload file <> [] ->
  converter_outcome env file w = Some (Returned (PyStr "")) ->
  fst (convert_file env file w) = PlainTextResponse 200 "".
Proof. intros Hp Hrun. by rewrite (convert_file_answer_for _ _ _ _ Hrun). Qed.

Lemma empty_result_is_valid_witness :
  fst (convert_file (sample_env (Returned (PyStr ""))) sample_upload empty_world)
  = PlainTextResponse 200 "".
Proof. apply empty_result_is_valid; [discriminate | reflexivity]. Defined.

(** ** The handler's exits *)

Lemma staging_unlink_policy (deny : string -> bool) (env : Env)
    (file : UploadFile) (w : World) :
  staging (with_unlink_denied deny env) file w = staging env file w.
Proof. reflexivity. Qed.

Lemma converter_run_unlink_policy (deny : string -> bool) (env : Env)
    (file : UploadFile) (w : World) :
  converter_run (with_unlink_denied deny env) file w = converter_run env file w.
Proof. reflexivity. Qed.

Lemma staging_done_run (env : Env) (file : UploadFile) (w : World)
    (tmp_path : string) (w1 : World) :
  payload file <> [] ->
  staging env file w = StagingDone tmp_path w1 ->
  tmp_path = staged_path env file
  /\ exists outcome files, converter_run env file w = Some (outcome, files).
Proof.
  intros Hp Hs. split.
  - destruct (staging_cases env file w) as [H|[(e & H)|(e & written & H)]];
      rewrite H in Hs; by inversion Hs.
  - unfold converter_run. rewrite Hs.
    destruct (payload file) as [|b rest]; [done|].
    destruct (convert env tmp_path (fs w1)) as [outcome files]. eauto.
Qed.

(** When the write fails after the file was created, the exception leaves
    the handler, [os.unlink] is not called and the file stays. *)
Lemma write_fault_leaves_file (env : Env) (file : UploadFile) (w : World)
    (e : pyexc) (written : bytes) :
  payload file <> [] ->
  staging env file w
  = StagingRaised e
      (emit (Created (staged_path env file))
            (mkWorld (<[staged_path env file := written]> (fs w)) (trace w))) ->
  fst (convert_file env file w) = Uncaught e
  /\ fs (snd (convert_file env file w)) !! staged_path env file = Some written
  /\ trace (snd (convert_file env file w))
     = (trace w ++ [Created (staged_path env file)])%list.
Proof.
  intros Hp Hs. rewrite (convert_file_staging_raised _ _ _ _ _ Hp Hs). simpl.
  split; [done|]. split; [apply lookup_insert_eq | done].
Qed.

(** C1 (the code falls short of it): a request with a payload of four
    bytes, served when the disk is full.  [NamedTemporaryFile] has created
    the staged file, the write raises, and since lines 20-22 are outside
    the [try] of line 24 the handler ends with that [OSError] without a
    call of [os.unlink]: the staged file is still there when the handler
    has returned. *)
Theorem failed_write_leaves_staged_file :
  let env := full_disk_env (Returned (PyStr "text")) in
  let r := convert_file env sample_upload empty_world in
  payload sample_upload <> []
  /\ fst r = Uncaught (PyExc ExcOSError "[Errno 28] No space left on device")
  /\ fs (snd r) !! "/tmp/tmpk3x9_q2a.docx" = Some []
  /\ trace (snd r) = [Created "/tmp/tmpk3x9_q2a.docx"]
  /\ Unlinked "/tmp/tmpk3x9_q2a.docx" ∉ trace (snd r).
Proof.
  intros env r.
  destruct (write_fault_leaves_file env sample_upload empty_world
              (PyExc ExcOSError "[Errno 28] No space left on device") [])
    as (Hanswer & Hfile & Htrace); [discriminate | reflexivity |].
  split; [discriminate|]. split; [exact Hanswer|].
  split; [exact Hfile|]. split; [exact Htrace|].
  subst r. rewrite Htrace. intros Hin.
  apply elem_of_cons in Hin as [Hin|Hin]; [discriminate|].
  by apply not_elem_of_nil in Hin.
Qed.

(** X16: once the staging of a non-empty upload is complete, whatever the
    converter does (returns, raises, removes the file itself)
    [os.unlink] is called on the staged file as the handler's last effect,
    after the converter call.  Unless the operating system refuses the
    removal, the file is gone when the handler returns.  A failed removal
    changes nothing in the answer, and an exception that leaves the handler
    is the converter's own. *)
Theorem staged_file_removed
    (env : Env) (file : UploadFile) (w : World) (tmp_path : string) (w1 : World) :
  payload file <> [] ->
  staging env file w = StagingDone tmp_path w1 ->
  let after := snd (convert_file env file w) in
  tmp_path = staged_path env file
  /\ (exists printed,
        trace after
        = (trace w ++ [Staged tmp_path; Converted tmp_path]
                   ++ printed ++ [Unlinked tmp_path])%list)
  /\ (unlink_denied env tmp_path = false -> fs after !! tmp_path = None)
  /\ (forall deny,
        fst (convert_file (with_unlink_denied deny env) file w)
        = fst (convert_file env file w))
  /\ (forall e,
        fst (convert_file env file w) = Uncaught e ->
        converter_outcome env file w = Some (Raised e)).
Proof.
  intros Hp Hs after. subst after.
  destruct (staging_done_run _ _ _ _ _ Hp Hs) as (-> & outcome & files & Hrun).
  split; [done|]. split; [|split; [|split]].
  - exists (printed_for outcome). by apply (convert_file_trace _ _ _ _ files).
  - intros Hok. rewrite (convert_file_fs _ _ _ _ _ Hrun). by apply os_unlink_gone.
  - intros deny.
    rewrite (convert_file_answer _ _ _ _ _ Hrun).
    by apply (convert_file_answer _ _ _ _ files).
  - intros e. rewrite (convert_file_answer _ _ _ _ _ Hrun).
    unfold converter_outcome. rewrite Hrun. simpl.
    destruct outcome as [v|e']; simpl.
    + by destruct (_to_markdown_text v).
    + destruct (isinstance_Exception e'); [done|]. by intros [= ->].
Qed.

Lemma staged_file_removed_witness :
  let env := sample_env (Raised (PyExc ExcException "corrupt stream")) in
  let after := snd (convert_file env sample_upload empty_world) in
  sample_upload.(payload) <> []
  /\ staged_path env sample_upload = "/tmp/tmpk3x9_q2a.docx"
  /\ fs after !! "/tmp/tmpk3x9_q2a.docx" = None.
Proof.
  intros env after.
  split; [discriminate|]. split; [vm_compute; reflexivity|].
  pose proof (staged_file_removed env sample_upload empty_world
                "/tmp/tmpk3x9_q2a.docx"
                (stage "/tmp/tmpk3x9_q2a.docx" (payload sample_upload)
                       empty_world)) as H.
  destruct H as (_ & _ & Hgone & _); [discriminate | reflexivity |].
  apply Hgone. reflexivity.
Defined.

(** C2: an upload of zero bytes is answered with 400 and the detail
    [Uploaded file is empty.] whatever its filename; the world is left as it
    was, so no file was staged and the converter was not called. *)
Theorem empty_upload_rejected (env : Env) (name : option string) (w : World) :
  convert_file env (mkUpload name []) w
  = (HTTPException 400 "Uploaded file is empty.", w)
  /\ fs (snd (convert_file env (mkUpload name []) w)) = fs w
  /\ trace (snd (convert_file env (mkUpload name []) w)) = trace w.
Proof. by repeat split. Qed.

(** C3: when the converter raises an error (an instance of [Exception])
    whose text is [E] on a non-empty upload, the handler answers 422 with
    the detail [Conversion failed: E], and [Conversion error: E] is printed
    after the converter call and before the handler returns. *)
Theorem converter_error_gives_422
    (env : Env) (file : UploadFile) (w : World) (exc : pyexc) :
  payload file <> [] ->
  converter_outcome env file w = Some (Raised exc) ->
  isinstance_Exception exc = true ->
  let tmp_path := staged_path env file in
  fst (convert_file env file w)
  = HTTPException 422 ("Conversion failed: " ++ exc_str exc)
  /\ trace (snd (convert_file env file w))
     = (trace w ++ [Staged tmp_path; Converted tmp_path;
                    Printed ("Conversion error: " ++ exc_str exc);
                    Unlinked tmp_path])%list.
Proof.
  intros Hp Hrun Hexc tmp_path.
  pose proof Hrun as [files Hfiles]%converter_outcome_run. split.
  - rewrite (convert_file_answer _ _ _ _ _ Hfiles). simpl. by rewrite Hexc.
  - rewrite (convert_file_trace _ _ _ _ _ Hfiles). simpl. by rewrite Hexc.
Qed.

Lemma converter_error_gives_422_witness :
  let env := sample_env (Raised (PyExc ExcException "corrupt stream")) in
  fst (convert_file env sample_upload empty_world)
  = HTTPException 422 "Conversion failed: corrupt stream"
  /\ trace (snd (convert_file env sample_upload empty_world))
     = [Staged "/tmp/tmpk3x9_q2a.docx"; Converted "/tmp/tmpk3x9_q2a.docx";
        Printed "Conversion error: corrupt stream";
        Unlinked "/tmp/tmpk3x9_q2a.docx"].
Proof.
  intros env.
  exact (converter_error_gives_422 env sample_upload empty_world
           (PyExc ExcException "corrupt stream")
           ltac:(discriminate) eq_refl eq_refl).
Defined.

(** ** The suffix of the staged file *)

Section Suffix.

Lemma contains_char_cons (c d : ascii) (rest : string) :
  PyString.contains (String c "") (String d rest)
  = Ascii.eqb d c || PyString.contains (String c "") rest.
Proof.
  cbn [PyString.contains String.prefix].
  destruct (Ascii.ascii_dec c d) as [->|Hne].
  - rewrite Ascii.eqb_refl. by destruct rest.
  - assert (Ascii.eqb d c = false) as -> by (apply Ascii.eqb_neq; congruence).
    done.
Qed.

Lemma rfind_absent (c : ascii) (s : string) :
  PyString.contains (String c "") s = false -> PyString.rfind c s = (-1)%Z.
Proof.
  induction s as [|d rest IH]; [done|].
  rewrite contains_char_cons. intros [Hd Hrest]%orb_false_elim.
  cbn [PyString.rfind]. rewrite (IH Hrest), Hd. done.
Qed.

Lemma split_without_sep (sep : ascii) (s : string) :
  PyString.contains (String sep "") s = false -> PyString.split sep s = [s].
Proof.
  induction s as [|d rest IH]; [done|].
  rewrite contains_char_cons. intros [Hd Hrest]%orb_false_elim.
  cbn [PyString.split]. rewrite (IH Hrest), Hd. done.
Qed.

Lemma split_keeps_absent (c sep : ascii) (s : string) :
  PyString.contains (String c "") s = false ->
  Forall (fun x => PyString.contains (String c "") x = false)
         (PyString.split sep s).
Proof.
  induction s as [|d rest IH]; [by repeat constructor|].
  rewrite contains_char_cons. intros [Hd Hrest]%orb_false_elim.
  specialize (IH Hrest). cbn [PyString.split].
  destruct (PyString.split sep rest) as [|hd tl].
  - repeat constructor. by rewrite contains_char_cons, Hd.
  - apply Forall_cons in IH as [Hhd Htl].
    destruct (Ascii.eqb d sep); repeat constructor; try done.
    by rewrite contains_char_cons, Hd, Hhd.
Qed.

Lemma name_keeps_absent (c : ascii) (p : string) :
  PyString.contains (String c "") p = false ->
  PyString.contains (String c "") (Path.name p) = false.
Proof.
  intros Hp. unfold Path.name.
  destruct (last (Path.tail p)) as [x|] eqn:Hlast; [|done]. simpl.
  apply last_Some_elem_of, list_elem_of_In in Hlast.
  apply List.filter_In in Hlast as [Hin _].
  pose proof (split_keeps_absent c "/" p Hp) as Hall.
  rewrite Forall_forall in Hall. apply Hall. by apply list_elem_of_In.
Qed.

Lemma name_without_slash (p : string) :
  PyString.contains "/" p = false ->
  (0 < PyString.rfind "." p)%Z ->
  Path.name p = p.
Proof.
  intros Hslash Hdot. unfold Path.name, Path.tail.
  rewrite (split_without_sep "/" p Hslash). cbn [List.filter].
  destruct (String.eqb p "") eqn:E1.
  { apply String.eqb_eq in E1. subst. done. }
  destruct (String.eqb p ".") eqn:E2.
  { apply String.eqb_eq in E2. subst. done. }
  done.
Qed.

End Suffix.

(** C6 (as amended): the suffix is taken from the final component of the
    declared filename (components are separated by slashes; empty ones and
    ["."] are skipped).  It is that component's substring from its last dot
    onward when that dot is neither the component's first nor its last
    character, and the empty string otherwise.  So it is empty when there is
    no filename or no dot in it, and for a filename without a slash whose
    last dot is neither first nor last it is the filename's substring from
    the last dot onward. *)
Theorem staged_suffix_of_final_component (file : UploadFile) :
  let declared := or_empty (filename file) in
  let name := Path.name declared in
  let i := PyString.rfind "." name in
  staged_suffix file
  = (if (0 <? i)%Z && (i <? PyString.len name - 1)%Z
     then suffix_from_last_dot (Some name)
     else "")
  /\ (PyString.contains "." declared = false -> staged_suffix file = "")
  /\ (PyString.contains "/" declared = false ->
      (0 < PyString.rfind "." declared < PyString.len declared - 1)%Z ->
      staged_suffix file = suffix_from_last_dot (filename file)).
Proof.
  intros declared name i. split; [|split].
  - unfold staged_suffix, Path.suffix. fold declared name i.
    destruct (0 <? i)%Z eqn:Hpos; [|done].
    destruct (i <? PyString.len name - 1)%Z; [|done].
    unfold suffix_from_last_dot. fold i.
    apply Z.ltb_lt in Hpos.
    assert ((i <? 0)%Z = false) as -> by (apply Z.ltb_ge; lia). done.
  - intros Hdot. unfold staged_suffix, Path.suffix. fold declared.
    rewrite (rfind_absent "." _ (name_keeps_absent "." declared Hdot)). done.
  - intros Hslash [Hlo Hhi].
    unfold staged_suffix, Path.suffix. fold declared.
    rewrite (name_without_slash declared Hslash Hlo).
    assert ((0 <? PyString.rfind "." declared)%Z = true) as ->
      by (apply Z.ltb_lt; lia).
    assert ((PyString.rfind "." declared <? PyString.len declared - 1)%Z = true)
      as -> by (apply Z.ltb_lt; lia).
    cbn [andb]. subst declared.
    destruct (filename file) as [f|]; [|done].
    unfold suffix_from_last_dot, or_empty in *.
    destruct (String.eqb f "") eqn:E.
    + apply String.eqb_eq in E. subst f. simpl in Hlo. lia.
    + assert ((PyString.rfind "." f <? 0)%Z = false) as ->
        by (apply Z.ltb_ge; lia). done.
Qed.

Lemma staged_suffix_of_final_component_witness :
  staged_suffix sample_upload = suffix_from_last_dot (Some "report.docx")
  /\ staged_suffix (mkUpload (Some "README") [x23]) = "".
Proof.
  split.
  - destruct (staged_suffix_of_final_component sample_upload) as (_ & _ & H).
    apply H; [reflexivity | split; reflexivity].
  - destruct (staged_suffix_of_final_component (mkUpload (Some "README") [x23]))
      as (_ & H & _).
    apply H. reflexivity.
Defined.

(** C6 (as stated) fails: the filename [.bashrc] contains a dot, its
    substring from the last dot onward is [.bashrc], yet the staged file
    gets the empty suffix. *)
Lemma dotfile_gets_no_suffix :
  let file := mkUpload (Some ".bashrc") [x23] in
  PyString.contains "." ".bashrc" = true
  /\ suffix_from_last_dot (filename file) = ".bashrc"
  /\ staged_suffix file = ""
  /\ staged_suffix file <> suffix_from_last_dot (filename file).
Proof. repeat split; try reflexivity. discriminate. Qed.


(** * Further properties of the code *)

(** ** The discovery loop *)

Section Discovery.

Lemma map_converter_name_union (converter_name : string) (extensions : gset string) :
  map_converter_name converter_name extensions
  = map_converter_name converter_name ∅ ∪ extensions.
Proof.
  unfold map_converter_name, set_add, set_update.
  repeat (match goal with
          | |- context [PyString.contains ?m converter_name] =>
              destruct (PyString.contains m converter_name)
          end; cbn [andb negb];
          [by rewrite (right_id_L ∅ (∪)) |]).
  by rewrite (left_id_L ∅ (∪)).
Qed.

Lemma visit_registration_union (extensions : gset string) (conv_reg : pyval) :
  visit_registration extensions conv_reg = contribution conv_reg ∪ extensions.
Proof.
  unfold contribution, visit_registration.
  destruct (py_lookup_attr conv_reg "converter").
  - apply map_converter_name_union.
  - by rewrite (left_id_L ∅ (∪)).
Qed.

Lemma elem_of_foldl_visit (x : string) (registrations : list pyval)
    (extensions : gset string) :
  x ∈ foldl visit_registration extensions registrations
  <-> x ∈ extensions
      \/ exists conv_reg, conv_reg ∈ registrations /\ x ∈ contribution conv_reg.
Proof.
  revert extensions.
  induction registrations as [|r rest IH]; intros extensions; simpl.
  - split; [by left|]. intros [H|(r & Hr & _)]; [done|].
    by apply not_elem_of_nil in Hr.
  - rewrite IH, visit_registration_union, elem_of_union. split.
    + intros [[H|H]|(r' & Hr' & H)].
      * right. exists r. split; [apply list_elem_of_here | done].
      * by left.
      * right. exists r'. split; [by apply list_elem_of_further | done].
    + intros [H|(r' & Hr' & H)]; [by left; right|].
      apply elem_of_cons in Hr' as [->|Hr'].
      * by left; left.
      * right. by exists r'.
Qed.

Lemma introspected_fold (converter : pyval) :
  introspected converter
  = foldl visit_registration ∅ (registrations_of converter).
Proof.
  unfold introspected, registrations_of.
  destruct (py_getattr converter "_converters" PyNone)
    as [|s|cls attrs [[[] [|r rest]]|] text]; simpl; try done.
  by destruct (String.eqb s "").
Qed.

Lemma elem_of_introspected (converter : pyval) (x : string) :
  x ∈ introspected converter
  <-> exists conv_reg,
        conv_reg ∈ registrations_of converter /\ x ∈ contribution conv_reg.
Proof.
  rewrite introspected_fold, elem_of_foldl_visit. split.
  - intros [H|H]; [by apply not_elem_of_empty in H | done].
  - by right.
Qed.

Lemma elem_of_collected (converter : pyval) (x : string) :
  x ∈ collected converter
  <-> x ∈ common_extensions
      \/ exists conv_reg,
           conv_reg ∈ registrations_of converter /\ x ∈ contribution conv_reg.
Proof.
  unfold collected, set_update.
  by rewrite elem_of_union, elem_of_list_to_set, elem_of_introspected.
Qed.

End Discovery.

Lemma elem_of_supported (converter : pyval) (x : string) :
  x ∈ _supported_extensions converter <-> x ∈ collected converter.
Proof. rewrite supported_skips_fallback. apply elem_of_sorted. Qed.

Lemma supported_of_collected (c1 c2 : pyval) :
  collected c1 = collected c2 ->
  _supported_extensions c1 = _supported_extensions c2.
Proof. intros H. by rewrite !supported_skips_fallback, H. Qed.

(** X1: an extension is listed exactly when it is one of the six common
    ones or some element of the registry list contributes it. *)
Theorem supported_extension_iff (converter : pyval) (x : string) :
  x ∈ _supported_extensions converter
  <-> x ∈ common_extensions
      \/ exists conv_reg,
           conv_reg ∈ registrations_of converter /\ x ∈ contribution conv_reg.
Proof. rewrite elem_of_supported. apply elem_of_collected. Qed.

Lemma supported_extension_iff_witness :
  ".docx" ∈ _supported_extensions
              (converter_with (PyList [PyNone; registration "DocxConverter"] "")).
Proof.
  apply supported_extension_iff. right.
  exists (registration "DocxConverter"). split.
  - apply list_elem_of_further, list_elem_of_here.
  - vm_compute. reflexivity.
Defined.

(** X2: the order of the registry and repeated entries do not matter: two
    registries with the same elements give the same list. *)
Theorem registry_order_and_repeats_irrelevant (c1 c2 : pyval) :
  (forall conv_reg,
      conv_reg ∈ registrations_of c1 <-> conv_reg ∈ registrations_of c2) ->
  _supported_extensions c1 = _supported_extensions c2.
Proof.
  intros Hsame. apply supported_of_collected, set_eq. intros x.
  rewrite !elem_of_collected. split.
  - intros [H|(r & Hr & H)]; [by left | right; exists r].
    split; [by apply Hsame | done].
  - intros [H|(r & Hr & H)]; [by left | right; exists r].
    split; [by apply Hsame | done].
Qed.

Lemma registry_order_and_repeats_irrelevant_witness :
  let a := registration "PdfConverter" in
  let b := registration "HtmlConverter" in
  _supported_extensions (converter_with (PyList [a; b] ""))
  = _supported_extensions (converter_with (PyList [b; a; b] "")).
Proof.
  intros a b. apply registry_order_and_repeats_irrelevant.
  intros r. change (r ∈ [a; b] <-> r ∈ [b; a; b]).
  rewrite !elem_of_cons. pose proof (not_elem_of_nil r). tauto.
Defined.

(** X3: a registry can only add: when every element of one registry is in
    another, every extension listed for the first is listed for the
    second. *)
Theorem more_registrations_more_extensions (c1 c2 : pyval) :
  (forall conv_reg,
      conv_reg ∈ registrations_of c1 -> conv_reg ∈ registrations_of c2) ->
  _supported_extensions c1 ⊆ _supported_extensions c2.
Proof.
  intros Hsub x. rewrite !elem_of_supported, !elem_of_collected.
  intros [H|(r & Hr & H)]; [by left | right; exists r].
  split; [by apply Hsub | done].
Qed.

Lemma more_registrations_more_extensions_witness :
  let a := registration "PdfConverter" in
  let b := registration "ZipConverter" in
  _supported_extensions (converter_with (PyList [a] ""))
  ⊆ _supported_extensions (converter_with (PyList [b; a] "")).
Proof.
  intros a b. apply more_registrations_more_extensions.
  intros r Hr. change (r ∈ [a]) in Hr. change (r ∈ [b; a]).
  by apply list_elem_of_further.
Defined.

(** X4: when no element of the registry contributes anything (the registry
    is absent, not a list or empty, its elements have no [converter]
    attribute, or no marker occurs in their handlers' class names) the list
    is the six common extensions in order. *)
Theorem registry_without_known_handlers (converter : pyval) :
  Forall (fun conv_reg => contribution conv_reg = ∅)
         (registrations_of converter) ->
  _supported_extensions converter
  = [".eml"; ".rtf"; ".tex"; ".tsv"; ".yaml"; ".yml"].
Proof.
  intros Hnone.
  assert (collected converter = set_update common_extensions ∅) as Hc.
  { apply set_eq. intros x. rewrite elem_of_collected.
    unfold set_update. rewrite elem_of_union, elem_of_list_to_set.
    rewrite Forall_forall in Hnone. split.
    - intros [H|(r & Hr & H)]; [by left|].
      rewrite (Hnone r Hr) in H. by apply not_elem_of_empty in H.
    - intros [H|H]; [by left | by apply not_elem_of_empty in H]. }
  rewrite supported_skips_fallback, Hc. vm_compute. reflexivity.
Qed.

Lemma registry_without_known_handlers_witness :
  _supported_extensions PyNone
  = [".eml"; ".rtf"; ".tex"; ".tsv"; ".yaml"; ".yml"]
  /\ _supported_extensions
       (converter_with
          (PyList [PyStr "pdf"; PyNone; registration "WikipediaConverter"] ""))
     = [".eml"; ".rtf"; ".tex"; ".tsv"; ".yaml"; ".yml"].
Proof.
  split; apply registry_without_known_handlers.
  - constructor.
  - repeat constructor.
Defined.

Ltac decide_by_evaluation :=
  match goal with
  | |- ?P => apply (bool_decide_unpack P); vm_compute; exact I
  end.

Ltac walk_marker_chain name :=
  repeat (match goal with
          | |- context [PyString.contains ?m name] =>
              destruct (PyString.contains m name)
          end; cbn [andb negb]).

(** X5: a handler whose lowercased class name contains the longer marker
    never counts for the shorter one: with ["docx"] in the name [.doc] is
    not contributed, with ["pptx"] not [.ppt], with ["xlsx"] not [.xls]. *)
Theorem longer_marker_shadows_shorter (converter_name : string) :
  (PyString.contains "docx" converter_name = true ->
   ".doc" ∉ map_converter_name converter_name ∅)
  /\ (PyString.contains "pptx" converter_name = true ->
      ".ppt" ∉ map_converter_name converter_name ∅)
  /\ (PyString.contains "xlsx" converter_name = true ->
      ".xls" ∉ map_converter_name converter_name ∅).
Proof.
  split; [|split]; intros H; unfold map_converter_name; rewrite H;
    cbn [andb negb]; (walk_marker_chain converter_name);
    (intros Hin; vm_compute in Hin; discriminate).
Qed.

Lemma longer_marker_shadows_shorter_witness :
  (".doc" ∉ map_converter_name (PyString.lower "DocxConverter") ∅)
  /\ (".xls" ∉ map_converter_name (PyString.lower "XlsxDocConverter") ∅).
Proof.
  split.
  - apply longer_marker_shadows_shorter. reflexivity.
  - apply longer_marker_shadows_shorter. reflexivity.
Defined.

Lemma map_converter_name_known (converter_name : string) :
  map_converter_name converter_name ∅ ⊆ list_to_set handler_extensions.
Proof.
  unfold map_converter_name. (walk_marker_chain converter_name);
    decide_by_evaluation.
Qed.

Lemma contribution_known (conv_reg : pyval) (x : string) :
  x ∈ contribution conv_reg -> x ∈ handler_extensions.
Proof.
  unfold contribution, visit_registration.
  destruct (py_lookup_attr conv_reg "converter") as [actual|].
  - intros H. apply (map_converter_name_known _ x) in H.
    by apply elem_of_list_to_set in H.
  - intros H. by apply not_elem_of_empty in H.
Qed.

Lemma known_extensions_shape :
  Forall (fun x => String.prefix "." x = true /\ PyString.lower x = x)
         known_extensions.
Proof. repeat constructor. Qed.

Lemma known_extensions_NoDup : NoDup known_extensions.
Proof. decide_by_evaluation. Qed.

(** X6: whatever the registry holds, every listed extension is one of the
    38 string literals of the function, so it starts with a dot and is in
    lower case; and the list has between 6 and 38 entries. *)
Theorem supported_extensions_within_known (converter : pyval) :
  Forall (fun x => x ∈ known_extensions
                   /\ String.prefix "." x = true
                   /\ PyString.lower x = x)
         (_supported_extensions converter)
  /\ (6 <= length (_supported_extensions converter) <= 38)%nat.
Proof.
  assert (forall x, x ∈ _supported_extensions converter -> x ∈ known_extensions)
    as Hknown.
  { intros x. rewrite elem_of_supported, elem_of_collected. unfold known_extensions.
    rewrite elem_of_app. intros [H|(r & _ & H)]; [by right | left].
    by apply contribution_known in H. }
  split.
  - apply Forall_forall. intros x Hx. split; [by apply Hknown|].
    pose proof known_extensions_shape as Hshape.
    rewrite Forall_forall in Hshape. by apply Hshape, Hknown.
  - split.
    + change 6%nat with (length common_extensions).
      apply submseteq_length, NoDup_submseteq.
      * decide_by_evaluation.
      * intros x Hx. apply elem_of_supported, elem_of_collected. by left.
    + change 38%nat with (length known_extensions).
      apply submseteq_length, NoDup_submseteq; [|exact Hknown].
      rewrite supported_skips_fallback. apply sorted_NoDup.
Qed.

(** ** The conversion endpoint, continued *)

(** X7: a request leaves every file but the staged one as the converter
    left it (as it was, when the converter did not run); the handler
    itself writes and removes the staged file only. *)
Theorem other_files_untouched
    (env : Env) (file : UploadFile) (w : World) (other : string) :
  payload file <> [] ->
  other <> staged_path env file ->
  fs (snd (convert_file env file w)) !! other
  = files_after_converter env file w !! other.
Proof.
  intros Hp Hne. unfold files_after_converter.
  destruct (converter_run env file w) as [[outcome files]|] eqn:Hrun.
  - rewrite (convert_file_fs _ _ _ _ _ Hrun). by apply os_unlink_others.
  - assert (converter_outcome env file w = None) as Hnone
      by (unfold converter_outcome; by rewrite Hrun).
    destruct (convert_file_no_run _ _ _ Hnone)
      as [[Hempty _]|(_ & e & w' & Hs & ->)]; [done|]. simpl.
    destruct (staging_cases env file w) as [H|[(e' & H)|(e' & written & H)]];
      rewrite H in Hs; inversion Hs; subst; simpl; [done|].
    by apply lookup_insert_ne.
Qed.

Lemma other_files_untouched_witness :
  let w := mkWorld {[ "/etc/hosts" := [x31] ]} [] in
  fs (snd (convert_file (sample_env (Returned PyNone)) sample_upload w))
     !! "/etc/hosts"
  = Some [x31].
Proof.
  intros w. etransitivity.
  - apply other_files_untouched; [discriminate|].
    intros H. vm_compute in H. discriminate.
  - reflexivity.
Defined.

(** X8: staging and cleanup cancel out: when the staged path was free, the
    write of the staged file does not fail, the converter does not touch
    the filesystem and the system does not refuse the removal, the
    filesystem after the request is the one before. *)
Theorem passive_conversion_restores_filesystem
    (env : Env) (file : UploadFile) (w : World) :
  payload file <> [] ->
  (forall e written,
      staging_fault env (staged_path env file) (payload file)
      <> WriteFault e written) ->
  (forall path files, snd (convert env path files) = files) ->
  unlink_denied env (staged_path env file) = false ->
  fs w !! staged_path env file = None ->
  fs (snd (convert_file env file w)) = fs w.
Proof.
  intros Hp Hwrite Hpassive Hok Hfree.
  destruct (converter_run env file w) as [[outcome files]|] eqn:Hrun.
  - rewrite (convert_file_fs _ _ _ _ _ Hrun).
    destruct (converter_run_staging _ _ _ _ _ Hrun) as [_ Hc].
    assert (files = <[staged_path env file := payload file]> (fs w)) as ->.
    { rewrite <- (Hpassive (staged_path env file)
                           (<[staged_path env file := payload file]> (fs w))).
      by rewrite Hc. }
    unfold os_unlink. rewrite lookup_insert_eq, Hok. simpl.
    by apply delete_insert_id.
  - assert (converter_outcome env file w = None) as Hnone
      by (unfold converter_outcome; by rewrite Hrun).
    destruct (convert_file_no_run _ _ _ Hnone)
      as [[Hempty _]|(_ & e & w' & Hs & ->)]; [done|]. simpl.
    unfold staging, named_temporary_file in Hs.
    fold (staged_path env file) in Hs.
    destruct (PyString.contains _ _); [by inversion Hs|].
    destruct (_ <? _)%nat; [by inversion Hs|].
    destruct (staging_fault env _ _) as [|e'|e' written] eqn:Hf;
      [done | by inversion Hs | by destruct (Hwrite e' written)].
Qed.

Lemma passive_conversion_restores_filesystem_witness :
  let w := mkWorld {[ "/etc/hosts" := [x31] ]} [] in
  fs (snd (convert_file (sample_env (Returned (PyStr "text"))) sample_upload w))
  = fs w.
Proof.
  intros w. apply passive_conversion_restores_filesystem;
    [discriminate | discriminate | reflexivity | reflexivity | reflexivity].
Defined.

(** X9: for a non-empty upload there are two courses.  Either staging
    raises: then the converter is not run and the exception is the
    handler's.  Or the converter runs on the complete upload: on the staged
    path, in a filesystem that holds the whole payload under that path and
    is otherwise the one before the request, and the answer is the one that
    goes with the outcome of that run. *)
Theorem converter_reads_the_payload (env : Env) (file : UploadFile) (w : World) :
  payload file <> [] ->
  (exists e w',
      staging env file w = StagingRaised e w'
      /\ converter_run env file w = None
      /\ convert_file env file w = (Uncaught e, w')
      /\ (trace w' = trace w
          \/ trace w' = (trace w ++ [Created (staged_path env file)])%list))
  \/ (exists files : gmap string bytes,
        files !! staged_path env file = Some (payload file)
        /\ (forall other, other <> staged_path env file ->
                          files !! other = fs w !! other)
        /\ converter_run env file w
           = Some (convert env (staged_path env file) files)
        /\ fst (convert_file env file w)
           = answer_for (fst (convert env (staged_path env file) files))).
Proof.
  intros Hp.
  destruct (converter_run env file w) as [[outcome files']|] eqn:Hrun.
  - right. exists (<[staged_path env file := payload file]> (fs w)).
    destruct (converter_run_staging _ _ _ _ _ Hrun) as [_ Hc].
    split; [apply lookup_insert_eq|]. split.
    + intros other Hne. by apply lookup_insert_ne.
    + rewrite Hc. split; [done|]. by apply (convert_file_answer _ _ _ _ files').
  - left.
    assert (converter_outcome env file w = None) as Hnone
      by (unfold converter_outcome; by rewrite Hrun).
    destruct (convert_file_no_run _ _ _ Hnone)
      as [[Hempty _]|(_ & e & w' & Hs & Hc)]; [done|].
    exists e, w'. split; [done|]. split; [done|]. split; [done|].
    destruct (staging_cases env file w) as [H|[(e' & H)|(e' & written & H)]];
      rewrite H in Hs; inversion Hs; subst; [by left | by right].
Qed.

Lemma converter_reads_the_payload_witness :
  (exists files : gmap string bytes,
      files !! "/tmp/tmpk3x9_q2a.docx" = Some [x50; x4b; x03; x04]
      /\ fst (convert_file (sample_env (Returned (PyStr "text"))) sample_upload
                           empty_world)
         = PlainTextResponse 200 "text")
  /\ converter_run (full_disk_env (Returned (PyStr "text"))) sample_upload
                   empty_world
     = None.
Proof.
  split.
  - destruct (converter_reads_the_payload (sample_env (Returned (PyStr "text")))
                sample_upload empty_world)
      as [(e & w' & Hs & _)|(files & Hfile & _ & _ & Hanswer)];
      [discriminate | discriminate |].
    exists files. split; [exact Hfile | exact Hanswer].
  - destruct (converter_reads_the_payload (full_disk_env (Returned (PyStr "text")))
                sample_upload empty_world)
      as [(e & w' & _ & Hnone & _)|(files & _ & _ & Hrun & _)];
      [discriminate | exact Hnone | discriminate].
Defined.

Lemma answer_for_cases (outcome : convert_outcome) :
  (exists body converted,
      outcome = Returned converted
      /\ _to_markdown_text converted = Some body
      /\ answer_for outcome = PlainTextResponse 200 body)
  \/ (outcome = Returned PyNone
      /\ answer_for outcome
         = HTTPException 500 "Conversion returned an unexpected format.")
  \/ (exists exc,
        outcome = Raised exc
        /\ isinstance_Exception exc = true
        /\ answer_for outcome
           = HTTPException 422 ("Conversion failed: " ++ exc_str exc))
  \/ (exists exc,
        outcome = Raised exc
        /\ isinstance_Exception exc = false
        /\ answer_for outcome = Uncaught exc).
Proof.
  destruct outcome as [v|e]; simpl.
  - destruct (_to_markdown_text v) as [body|] eqn:E.
    + left. by exists body, v.
    + right; left. apply to_markdown_text_none in E. by subst.
  - destruct (isinstance_Exception e) eqn:E.
    + right; right; left. by exists e.
    + right; right; right. by exists e.
Qed.

(** X10: the 400 answer is for the empty payload and for nothing else. *)
Theorem status_400_iff_empty (env : Env) (file : UploadFile) (w : World) :
  (exists detail, fst (convert_file env file w) = HTTPException 400 detail)
  <-> payload file = [].
Proof.
  split.
  - intros [detail H]. destruct (payload file) as [|b rest] eqn:Hp; [done|].
    destruct (converter_outcome env file w) as [outcome|] eqn:Hrun.
    + rewrite (convert_file_answer_for _ _ _ _ Hrun) in H.
      destruct (answer_for_cases outcome)
        as [(body & v & _ & _ & Ha)|[(_ & Ha)|[(e & _ & _ & Ha)|(e & _ & _ & Ha)]]];
        rewrite Ha in H; discriminate.
    + destruct (convert_file_no_run _ _ _ Hrun)
        as [[Hempty _]|(_ & e & w' & _ & Hc)]; [congruence|].
      rewrite Hc in H. discriminate.
  - intros Hp. unfold convert_file. rewrite Hp. eauto.
Qed.

(** X11: the handler answers 200 with [body] exactly when the payload is
    not empty and the converter returned a value that normalises to
    [body]. *)
Theorem status_200_iff
    (env : Env) (file : UploadFile) (w : World) (body : string) :
  fst (convert_file env file w) = PlainTextResponse 200 body
  <-> payload file <> []
      /\ exists converted,
           converter_outcome env file w = Some (Returned converted)
           /\ _to_markdown_text converted = Some body.
Proof.
  split.
  - intros H. destruct (converter_outcome env file w) as [outcome|] eqn:Hrun.
    + rewrite (convert_file_answer_for _ _ _ _ Hrun) in H.
      apply converter_outcome_run in Hrun as [files Hrun].
      split; [by apply (converter_run_payload _ _ _ _ _ Hrun)|].
      destruct outcome as [v|e]; simpl in H.
      * exists v. split; [done|].
        destruct (_to_markdown_text v); [|discriminate]. congruence.
      * by destruct (isinstance_Exception e).
    + destruct (convert_file_no_run _ _ _ Hrun)
        as [[_ Hc]|(_ & e & w' & _ & Hc)]; rewrite Hc in H; discriminate.
  - intros (Hp & v & Hrun & Hv).
    rewrite (convert_file_answer_for _ _ _ _ Hrun). simpl. by rewrite Hv.
Qed.

(** X12: the handler has six ways out and no other: 200 with a body, 400,
    422, 500, an exception raised by the staging of lines 20-22, or an
    exception of the converter that is not an [Exception] and goes
    through. *)
Theorem answer_is_one_of (env : Env) (file : UploadFile) (w : World) :
  match fst (convert_file env file w) with
  | PlainTextResponse status _ => status = 200%Z
  | HTTPException status _ => status = 400%Z \/ status = 422%Z \/ status = 500%Z
  | Uncaught exc =>
      (exists w', staging env file w = StagingRaised exc w'
                  /\ converter_outcome env file w = None)
      \/ (isinstance_Exception exc = false
          /\ converter_outcome env file w = Some (Raised exc))
  end.
Proof.
  destruct (converter_outcome env file w) as [outcome|] eqn:Hrun.
  - rewrite (convert_file_answer_for _ _ _ _ Hrun).
    destruct (answer_for_cases outcome)
      as [(body & v & _ & _ & Ha)|[(_ & Ha)|[(e & -> & _ & Ha)|(e & -> & He & Ha)]]];
      rewrite Ha; auto.
  - destruct (convert_file_no_run _ _ _ Hrun)
      as [[_ Hc]|(_ & e & w' & Hs & Hc)]; rewrite Hc; simpl; [by left|].
    left. by exists w'.
Qed.

(** X13: nothing is printed unless the answer is 422.  On every other way
    out of a request with a payload the handler's effects are: none, when
    the temporary file could not be created; the creation alone, when the
    write failed; and staging, the converter call and the removal, in this
    order, when the converter ran. *)
Theorem prints_only_on_422 (env : Env) (file : UploadFile) (w : World) :
  payload file <> [] ->
  (forall detail, fst (convert_file env file w) <> HTTPException 422 detail) ->
  let tmp_path := staged_path env file in
  exists events,
    trace (snd (convert_file env file w)) = (trace w ++ events)%list
    /\ (events = []
        \/ events = [Created tmp_path]
        \/ events = [Staged tmp_path; Converted tmp_path; Unlinked tmp_path])
    /\ (converter_outcome env file w <> None ->
        events = [Staged tmp_path; Converted tmp_path; Unlinked tmp_path]).
Proof.
  intros Hp Hnot tmp_path.
  destruct (converter_outcome env file w) as [outcome|] eqn:Hrun.
  - exists [Staged tmp_path; Converted tmp_path; Unlinked tmp_path].
    rewrite (convert_file_answer_for _ _ _ _ Hrun) in Hnot.
    apply converter_outcome_run in Hrun as [files Hrun].
    rewrite (convert_file_trace _ _ _ _ _ Hrun).
    assert (printed_for outcome = []) as ->.
    { destruct outcome as [v|e]; simpl in *; [done|].
      destruct (isinstance_Exception e); [|done].
      by destruct (Hnot ("Conversion failed: " ++ exc_str e)). }
    split; [done|]. split; [by right; right | done].
  - destruct (convert_file_no_run _ _ _ Hrun)
      as [[Hempty _]|(_ & e & w' & Hs & Hc)]; [done|]. rewrite Hc. simpl.
    destruct (staging_cases env file w) as [H|[(e' & H)|(e' & written & H)]];
      rewrite H in Hs; inversion Hs; subst.
    + exists []. rewrite app_nil_r. split; [done|]. split; [by left | done].
    + exists [Created tmp_path]. split; [done|]. split; [by right; left | done].
Qed.

Lemma prints_only_on_422_witness :
  exists events,
    trace (snd (convert_file (sample_env (Returned PyNone)) sample_upload
                             empty_world))
    = events
    /\ events = [Staged "/tmp/tmpk3x9_q2a.docx"; Converted "/tmp/tmpk3x9_q2a.docx";
                 Unlinked "/tmp/tmpk3x9_q2a.docx"].
Proof.
  destruct (prints_only_on_422 (sample_env (Returned PyNone)) sample_upload
              empty_world) as (events & Htrace & _ & Hrun);
    [discriminate | intros detail; discriminate |].
  exists events. split; [exact Htrace|]. apply Hrun. discriminate.
Defined.

(** ** The suffix, continued *)

Section SuffixShape.

Lemma rfind_negative_absent (c : ascii) (s : string) :
  (PyString.rfind c s < 0)%Z -> PyString.contains (String c "") s = false.
Proof.
  induction s as [|d rest IH]; [done|].
  cbn [PyString.rfind]. rewrite contains_char_cons.
  destruct (0 <=? PyString.rfind c rest)%Z eqn:Hr.
  - apply Z.leb_le in Hr. lia.
  - apply Z.leb_gt in Hr. destruct (Ascii.eqb d c); [lia|].
    intros _. by rewrite (IH Hr).
Qed.

Lemma rfind_splits (c : ascii) (s : string) :
  (0 <= PyString.rfind c s)%Z ->
  exists pre post,
    s = pre ++ String c post
    /\ PyString.len pre = PyString.rfind c s
    /\ PyString.contains (String c "") post = false.
Proof.
  induction s as [|d rest IH]; [simpl; lia|].
  cbn [PyString.rfind].
  destruct (0 <=? PyString.rfind c rest)%Z eqn:Hr.
  - apply Z.leb_le in Hr. intros _.
    destruct (IH Hr) as (pre & post & -> & Hlen & Hpost).
    exists (String d pre), post. split; [done|]. split; [|done].
    unfold PyString.len in *. simpl. lia.
  - apply Z.leb_gt in Hr. destruct (Ascii.eqb d c) eqn:Hd; [|lia].
    intros _. apply Ascii.eqb_eq in Hd. subst d.
    exists "", rest. split; [done|]. split; [done|].
    by apply rfind_negative_absent.
Qed.

Lemma substring_whole (s : string) : String.substring 0 (String.length s) s = s.
Proof. induction s as [|c s IH]; [done|]. simpl. by rewrite IH. Qed.

Lemma length_append (a b : string) :
  String.length (a ++ b) = (String.length a + String.length b)%nat.
Proof. induction a as [|c a IH]; [done|]. simpl. by rewrite IH. Qed.

Lemma slice_from_append (pre rest : string) :
  PyString.slice_from (PyString.len pre) (pre ++ rest) = rest.
Proof.
  unfold PyString.slice_from, PyString.len. rewrite Nat2Z.id, length_append.
  replace (String.length pre + String.length rest - String.length pre)%nat
    with (String.length rest) by lia.
  induction pre as [|c pre IH]; simpl; [apply substring_whole | exact IH].
Qed.

Lemma contains_char_append (c : ascii) (a b : string) :
  PyString.contains (String c "") (a ++ b)
  = PyString.contains (String c "") a || PyString.contains (String c "") b.
Proof.
  induction a as [|d a IH].
  - by destruct b.
  - change (String d a ++ b) with (String d (a ++ b)).
    by rewrite !contains_char_cons, IH, orb_assoc.
Qed.

Lemma split_nonempty (sep : ascii) (s : string) : PyString.split sep s <> [].
Proof.
  destruct s as [|c rest]; [done|]. cbn [PyString.split].
  destruct (PyString.split sep rest); [done|]. by destruct (Ascii.eqb c sep).
Qed.

Lemma split_components_without_sep (sep : ascii) (s : string) :
  Forall (fun x => PyString.contains (String sep "") x = false)
         (PyString.split sep s).
Proof.
  induction s as [|c rest IH]; [by repeat constructor|].
  cbn [PyString.split].
  pose proof (split_nonempty sep rest) as Hne.
  destruct (PyString.split sep rest) as [|hd tl]; [done|].
  apply Forall_cons in IH as [Hhd Htl].
  destruct (Ascii.eqb c sep) eqn:Hc; repeat constructor; try done.
  by rewrite contains_char_cons, Hc, Hhd.
Qed.

Lemma name_without_sep (p : string) :
  PyString.contains "/" (Path.name p) = false.
Proof.
  unfold Path.name.
  destruct (last (Path.tail p)) as [x|] eqn:Hlast; [|done]. simpl.
  apply last_Some_elem_of, list_elem_of_In in Hlast.
  apply List.filter_In in Hlast as [Hin _].
  pose proof (split_components_without_sep "/" p) as Hall.
  rewrite Forall_forall in Hall. apply Hall. by apply list_elem_of_In.
Qed.

Lemma suffix_cases (p : string) :
  Path.suffix p = ""
  \/ exists stem ext,
       Path.name p = stem ++ String "." ext
       /\ Path.suffix p = String "." ext
       /\ stem <> "" /\ ext <> ""
       /\ PyString.contains "." ext = false.
Proof.
  unfold Path.suffix.
  destruct (0 <? PyString.rfind "." (Path.name p))%Z eqn:Hlo; [|by left].
  destruct (PyString.rfind "." (Path.name p) <? PyString.len (Path.name p) - 1)%Z
    eqn:Hhi; [|by left].
  right. apply Z.ltb_lt in Hlo, Hhi.
  destruct (rfind_splits "." (Path.name p)) as (stem & ext & Hname & Hlen & Hext);
    [lia|].
  exists stem, ext. rewrite <- Hlen in *. rewrite Hname in *.
  rewrite slice_from_append. split; [done|]. split; [done|].
  unfold PyString.len in *. rewrite length_append in Hhi. simpl in Hhi.
  split; [|split; [|done]].
  - intros ->. simpl in Hlo. lia.
  - intros ->. simpl in Hhi. lia.
Qed.

End SuffixShape.

(** X14: whatever filename the client declares, the suffix of the staged
    file is empty or a dot followed by at least one character, with no
    further dot and no slash in it: the filename cannot move the staged
    file to another directory. *)
Theorem staged_suffix_shape (file : UploadFile) :
  staged_suffix file = ""
  \/ exists ext,
       staged_suffix file = String "." ext
       /\ ext <> ""
       /\ PyString.contains "." ext = false
       /\ PyString.contains "/" ext = false.
Proof.
  unfold staged_suffix.
  destruct (suffix_cases (or_empty (filename file)))
    as [H|(stem & ext & Hname & Hsuffix & _ & Hext & Hdot)]; [by left|].
  right. exists ext. repeat split; try done.
  pose proof (name_without_sep (or_empty (filename file))) as Hslash.
  rewrite Hname, contains_char_append, contains_char_cons in Hslash.
  apply orb_false_elim in Hslash as [_ Hslash].
  by apply orb_false_elim in Hslash as [_ Hslash].
Qed.

(** X15: the suffix is an end of the final component of the declared
    filename, and never the whole of it: something is left in front of a
    non-empty suffix. *)
Theorem staged_suffix_ends_name (file : UploadFile) :
  exists stem,
    Path.name (or_empty (filename file)) = stem ++ staged_suffix file
    /\ (staged_suffix file = "" \/ stem <> "").
Proof.
  unfold staged_suffix.
  destruct (suffix_cases (or_empty (filename file)))
    as [H|(stem & ext & Hname & Hsuffix & Hstem & _)].
  - exists (Path.name (or_empty (filename file))). rewrite H. split; [|by left].
    generalize (Path.name (or_empty (filename file))).
    intros s. induction s as [|c s IH]; [done|].
    change (String c s ++ "") with (String c (s ++ "")). by f_equal.
  - exists stem. rewrite Hsuffix. split; [done | by right].
Qed.
